(** * BMI calculator widget: a shallow embedding of
      [src/components/BMICalculator.jsx] and the properties of its handlers.

    The component keeps five pieces of React state ([height], [weight], [bmi],
    [message], [darkMode]) and changes them in four handlers: the two
    [onChange] handlers, [calculateBMI], [resetForm] and the theme button.
    The handlers are embedded as total functions on a record of the five
    state cells.

    [calculateBMI] leans on the JavaScript runtime: the strings held in
    [height] and [weight] are coerced to Numbers by [*] and [/], the quotient
    is formatted by [Number.prototype.toFixed], and the resulting string is
    coerced back to a Number by [<].  These runtime operations are embedded
    from ECMA-262: Numbers are IEEE 754 binary64 values ([spec_float] of the
    standard library with precision 53 and maximal exponent 1024), strings are
    sequences of code units.  A [string] of this file stands for the
    JavaScript string with the same code units, so the strings covered are
    those whose code units are below 256. *)

From Stdlib Require Import ZArith QArith Qpower List Bool String Ascii Lia.
From Stdlib Require Import Floats.SpecFloat.
Import ListNotations.

Local Open Scope string_scope.
Local Open Scope Z_scope.

(** ** Numbers: IEEE 754 binary64 *)

Module Number.

Definition prec : Z := 53.
Definition emax : Z := 1024.

Definition t : Type := spec_float.

Definition NaN : t := S754_nan.
Definition Infinity : t := S754_infinity false.

(** [Number::multiply], [Number::divide] and [Number::lessThan]. *)
Definition multiply (x y : t) : t := SFmul prec emax x y.
Definition divide (x y : t) : t := SFdiv prec emax x y.
Definition lessThan (x y : t) : bool := SFltb x y.
Definition lessEq (x y : t) : bool := SFleb x y.

(** The Number value for the real [m * 10 ^ e10] (round to nearest, ties to
    even, overflow to infinity), with the sign [neg].  The decimal is
    rounded exactly, as engines do; the latitude ECMA-262 leaves beyond the
    twentieth significant digit is not used. *)
Definition of_decimal (neg : bool) (m e10 : Z) : t :=
  match m with
  | Z0 => S754_zero neg
  | Zpos p =>
      if 0 <=? e10 then
        binary_round prec emax neg (Z.to_pos (Zpos p * 10 ^ e10)) 0
      else
        let '(q, e, l) :=
          SFdiv_core_binary prec emax (Zpos p) 0 (10 ^ (- e10)) 0 in
        binary_round_aux prec emax neg q e l
  | Zneg _ => S754_nan
  end.

(** The Number value for a non-negative integer. *)
Definition of_Z (n : Z) : t := of_decimal false n 0.

Definition eqb (x y : t) : bool := SFeqb x y.

(** The real value of a finite Number. *)
Definition to_Q (x : t) : option Q :=
  match x with
  | S754_zero _ => Some 0%Q
  | S754_finite s m e =>
      Some ((if s then -1 else 1) * inject_Z (Zpos m) * 2 ^ e)%Q
  | S754_infinity _ | S754_nan => None
  end.

End Number.

(** ** Strings of code units *)

Definition code (c : ascii) : Z := Z.of_N (N_of_ascii c).

Definition is_digit (c : ascii) : bool := (48 <=? code c) && (code c <=? 57).

Definition digit_val (c : ascii) : Z := code c - 48.

Definition digit_char (d : Z) : ascii := ascii_of_N (Z.to_N (48 + d)).

(** WhiteSpace and LineTerminator code units (those below 256): TAB, LF, VT,
    FF, CR, SP and NBSP. *)
Definition is_white (c : ascii) : bool :=
  let n := code c in
  ((9 <=? n) && (n <=? 13)) || (n =? 32) || (n =? 160).

Fixpoint trim_start (s : string) : string :=
  match s with
  | String c r => if is_white c then trim_start r else s
  | EmptyString => EmptyString
  end.

Fixpoint trim_end (s : string) : string :=
  match s with
  | String c r =>
      match trim_end r with
      | EmptyString => if is_white c then EmptyString else String c EmptyString
      | r' => String c r'
      end
  | EmptyString => EmptyString
  end.

Definition trim (s : string) : string := trim_end (trim_start s).

(** The longest prefix of characters satisfying [p], and the rest. *)
Fixpoint span (p : ascii -> bool) (s : string) : string * string :=
  match s with
  | String c r =>
      if p c then let '(a, b) := span p r in (String c a, b)
      else (EmptyString, s)
  | EmptyString => (EmptyString, EmptyString)
  end.

(** ** StringToNumber (ECMA-262, 7.1.4.1.1) *)

(** The mathematical value of a digit string in a radix, most significant
    digit first, continuing from [acc]. *)
Fixpoint digits_value (radix : Z) (val : ascii -> Z) (acc : Z) (s : string) : Z :=
  match s with
  | String c r => digits_value radix val (radix * acc + val c) r
  | EmptyString => acc
  end.

Definition decimal_value (s : string) : Z := digits_value 10 digit_val 0 s.

Definition is_hex_digit (c : ascii) : bool :=
  let n := code c in
  is_digit c || ((65 <=? n) && (n <=? 70)) || ((97 <=? n) && (n <=? 102)).

Definition hex_val (c : ascii) : Z :=
  let n := code c in
  if is_digit c then n - 48 else if n <=? 70 then n - 55 else n - 87.

Definition is_octal_digit (c : ascii) : bool := (48 <=? code c) && (code c <=? 55).
Definition is_binary_digit (c : ascii) : bool := (48 <=? code c) && (code c <=? 49).

(** NonDecimalIntegerLiteral: [0x], [0o], [0b] followed by at least one digit
    of the radix and nothing else. *)
Definition radix_literal (radix : Z) (p : ascii -> bool) (val : ascii -> Z)
    (s : string) : Number.t :=
  match span p s with
  | (String c r, EmptyString) =>
      Number.of_Z (digits_value radix val 0 (String c r))
  | _ => Number.NaN
  end.

(** SignedInteger of an ExponentPart: an optional sign and at least one
    digit, up to the end of the string. *)
Definition signed_integer (s : string) : option Z :=
  let '(neg, r) :=
    match s with
    | String c r =>
        if (c =? "+")%char then (false, r)
        else if (c =? "-")%char then (true, r)
        else (false, s)
    | EmptyString => (false, s)
    end in
  match span is_digit r with
  | (String c d, EmptyString) =>
      let v := decimal_value (String c d) in
      Some (if neg then - v else v)
  | _ => None
  end.

(** StrUnsignedDecimalLiteral other than [Infinity]: the digits of the
    mantissa and the decimal exponent, when the string matches
    [digits . digits? exp?], [. digits exp?] or [digits exp?]. *)
Definition unsigned_decimal (s : string) : option (Z * Z) :=
  let '(ip, r1) := span is_digit s in
  let '(fp, r2) :=
    match r1 with
    | String c r => if (c =? ".")%char then span is_digit r else (EmptyString, r1)
    | EmptyString => (EmptyString, r1)
    end in
  match (ip ++ fp)%string with
  | EmptyString => None
  | ds =>
      let m := decimal_value ds in
      let scale := Z.of_nat (String.length fp) in
      match r2 with
      | EmptyString => Some (m, - scale)
      | String c r3 =>
          if (c =? "e")%char || (c =? "E")%char then
            match signed_integer r3 with
            | Some e => Some (m, e - scale)
            | None => None
            end
          else None
      end
  end.

Definition str_unsigned_decimal_literal (neg : bool) (s : string) : Number.t :=
  if (s =? "Infinity")%string then S754_infinity neg
  else
    match unsigned_decimal s with
    | Some (m, e) => Number.of_decimal neg m e
    | None => Number.NaN
    end.

(** StrDecimalLiteral: an optional sign before the unsigned literal. *)
Definition str_decimal_literal (s : string) : Number.t :=
  match s with
  | String c r =>
      if (c =? "+")%char then str_unsigned_decimal_literal false r
      else if (c =? "-")%char then str_unsigned_decimal_literal true r
      else str_unsigned_decimal_literal false s
  | EmptyString => str_unsigned_decimal_literal false s
  end.

(** NonDecimalIntegerLiteral, when the string starts with one of its
    prefixes. *)
Definition non_decimal_integer_literal (s : string) : option Number.t :=
  match s with
  | String c0 (String c1 r) =>
      if (c0 =? "0")%char then
        if (c1 =? "x")%char || (c1 =? "X")%char then
          Some (radix_literal 16 is_hex_digit hex_val r)
        else if (c1 =? "o")%char || (c1 =? "O")%char then
          Some (radix_literal 8 is_octal_digit digit_val r)
        else if (c1 =? "b")%char || (c1 =? "B")%char then
          Some (radix_literal 2 is_binary_digit digit_val r)
        else None
      else None
  | _ => None
  end.

Definition StringToNumber (str : string) : Number.t :=
  match trim str with
  | EmptyString => S754_zero false
  | s =>
      match non_decimal_integer_literal s with
      | Some x => x
      | None => str_decimal_literal s
      end
  end.

(** ** Number::toString (ECMA-262, 6.1.6.1.20, radix 10) *)

Fixpoint digits_fuel (fuel : nat) (n : Z) (acc : string) : string :=
  match fuel with
  | O => acc
  | S f =>
      let acc' := String (digit_char (n mod 10)) acc in
      if n / 10 =? 0 then acc' else digits_fuel f (n / 10) acc'
  end.

(** The decimal representation of a non-negative integer, without leading
    zeros ([0] for zero). *)
Definition decimal_digits (n : Z) : string :=
  digits_fuel (S (Z.to_nat (Z.log2 n))) n EmptyString.

Fixpoint zeros (n : nat) : string :=
  match n with
  | O => EmptyString
  | S n' => String "0" (zeros n')
  end.

Section Shortest.

(** The positive finite Number [x], whose real value is [N / D]. *)
Variable x : Number.t.
Variables N D : Z.

(** The least [j >= 0], counted from [j], with [10 ^ -(j+1) <= N / D]. *)
Fixpoint leading_zeros (fuel : nat) (j : Z) : Z :=
  match fuel with
  | O => j
  | S f => if D <=? N * 10 ^ (j + 1) then j else leading_zeros f (j + 1)
  end.

(** The integer [n] with [10 ^ (n - 1) <= N / D < 10 ^ n]. *)
Definition decimal_exponent : Z :=
  if D <=? N then Z.of_nat (String.length (decimal_digits (N / D)))
  else - leading_zeros 400 0.

(** A [k]-digit integer [s] for which [s * 10 ^ (n - k)] has the Number
    value [x], the closest one to [N / D] (the even one on a tie). *)
Definition digits_candidate (n k : Z) : option Z :=
  let '(P, Q) :=
    if n - k <=? 0 then (N * 10 ^ (k - n), D) else (N, D * 10 ^ (n - k)) in
  let lo := P / Q in
  let hi := lo + 1 in
  let r := P mod Q in
  let ok s := Number.eqb (Number.of_decimal false s (n - k)) x in
  match ok lo, ok hi with
  | true, true =>
      Some (if 2 * r <? Q then lo
            else if Q <? 2 * r then hi
            else if Z.even lo then lo else hi)
  | true, false => Some lo
  | false, true => Some hi
  | false, false => None
  end.

(** The least [k >= 1], counted from [k], with a candidate; the result is
    [(n, k, s)] with [10 ^ (k - 1) <= s < 10 ^ k]. *)
Fixpoint shortest_digits (fuel : nat) (n k : Z) : Z * Z * Z :=
  match fuel with
  | O => (n, k, 0)
  | S f =>
      match digits_candidate n k with
      | Some s => if s =? 10 ^ k then (n + 1, k, s / 10) else (n, k, s)
      | None => shortest_digits f n (k + 1)
      end
  end.

End Shortest.

Definition exponent_part (e : Z) : string :=
  String "e" (String (if e <? 0 then "-"%char else "+"%char) (decimal_digits (Z.abs e))).

Definition toString_positive (x : Number.t) (m : positive) (e : Z) : string :=
  let '(N, D) := if 0 <=? e then (Zpos m * 2 ^ e, 1) else (Zpos m, 2 ^ (- e)) in
  let '(n, k, s) := shortest_digits x N D 25 (decimal_exponent N D) 1 in
  let ds := decimal_digits s in
  if (k <=? n) && (n <=? 21) then ds ++ zeros (Z.to_nat (n - k))
  else if (0 <? n) && (n <=? 21) then
    substring 0 (Z.to_nat n) ds ++ "." ++ substring (Z.to_nat n) (Z.to_nat (k - n)) ds
  else if (-6 <? n) && (n <=? 0) then "0." ++ zeros (Z.to_nat (- n)) ++ ds
  else if k =? 1 then ds ++ exponent_part (n - 1)
  else
    substring 0 1 ds ++ "." ++ substring 1 (Z.to_nat (k - 1)) ds
      ++ exponent_part (n - 1).

Definition Number_toString (x : Number.t) : string :=
  match x with
  | S754_nan => "NaN"
  | S754_zero _ => "0"
  | S754_infinity false => "Infinity"
  | S754_infinity true => "-Infinity"
  | S754_finite false m e => toString_positive x m e
  | S754_finite true m e => "-" ++ toString_positive (S754_finite false m e) m e
  end.

(** ** Number.prototype.toFixed (ECMA-262, 21.1.3.3) *)

(** Whether [m * 2 ^ e >= 10 ^ 21]. *)
Definition at_least_1e21 (m : positive) (e : Z) : bool :=
  if 0 <=? e then 10 ^ 21 <=? Zpos m * 2 ^ e
  else 10 ^ 21 * 2 ^ (- e) <=? Zpos m.

(** The integer [n] for which [n / 10 ^ f - m * 2 ^ e] is as close to zero as
    possible, the larger one when there are two. *)
Definition nearest_scaled (f : nat) (m : positive) (e : Z) : Z :=
  let p := 10 ^ Z.of_nat f in
  if 0 <=? e then p * Zpos m * 2 ^ e
  else (2 * p * Zpos m + 2 ^ (- e)) / 2 ^ (1 - e).

(** Steps 10.b-10.e of toFixed: the digits of [n], padded with zeros to at
    least [f + 1] characters, with a point before the last [f]. *)
Definition fixed_digits (f : nat) (n : Z) : string :=
  let m := if n =? 0 then "0" else decimal_digits n in
  match f with
  | O => m
  | _ =>
      let k := String.length m in
      let m := if (k <=? f)%nat then zeros (f + 1 - k) ++ m else m in
      let k := if (k <=? f)%nat then (f + 1)%nat else k in
      substring 0 (k - f) m ++ "." ++ substring (k - f) f m
  end.

Definition toFixed (x : Number.t) (fractionDigits : nat) : string :=
  match x with
  | S754_nan | S754_infinity _ => Number_toString x
  | S754_zero _ => fixed_digits fractionDigits 0
  | S754_finite s m e =>
      (if s then "-" else "") ++
      (if at_least_1e21 m e then Number_toString (S754_finite false m e)
       else fixed_digits fractionDigits (nearest_scaled fractionDigits m e))
  end.

(** ** Coercions used by the component *)

(** ToBoolean on a string: the empty string is the only falsy one. *)
Definition truthy (s : string) : bool := negb (s =? "")%string.

(** The numeric literals of the source text. *)
Definition lit_18_5 : Number.t := Number.of_decimal false 185 (-1).
Definition lit_24_9 : Number.t := Number.of_decimal false 249 (-1).
Definition lit_29_9 : Number.t := Number.of_decimal false 299 (-1).

(** [v < c] for a string [v] and a Number [c]: IsLessThan coerces the string
    with StringToNumber; an undefined comparison (NaN) counts as false. *)
Definition string_lt (v : string) (c : Number.t) : bool :=
  Number.lessThan (StringToNumber v) c.

(** ** The component state and its handlers *)

Record State : Type := mkState {
  height : string;
  weight : string;
  bmi : option string;      (* [null] or the string returned by toFixed *)
  message : string;
  darkMode : bool
}.

(** The values passed to the five [useState] calls. *)
Definition initial : State :=
  {| height := ""; weight := ""; bmi := None; message := ""; darkMode := false |}.

Definition setHeight (v : string) (st : State) : State :=
  {| height := v; weight := weight st; bmi := bmi st;
     message := message st; darkMode := darkMode st |}.

Definition setWeight (v : string) (st : State) : State :=
  {| height := height st; weight := v; bmi := bmi st;
     message := message st; darkMode := darkMode st |}.

Definition setBMI (v : option string) (st : State) : State :=
  {| height := height st; weight := weight st; bmi := v;
     message := message st; darkMode := darkMode st |}.

Definition setMessage (v : string) (st : State) : State :=
  {| height := height st; weight := weight st; bmi := bmi st;
     message := v; darkMode := darkMode st |}.

Definition setDarkMode (v : bool) (st : State) : State :=
  {| height := height st; weight := weight st; bmi := bmi st;
     message := message st; darkMode := v |}.

Definition error_message : string := "Please enter valid height and weight".

(** [weight / (height * height)] on the two strings. *)
Definition quotient (height weight : string) : Number.t :=
  Number.divide (StringToNumber weight)
    (Number.multiply (StringToNumber height) (StringToNumber height)).

(** [(weight / (height * height)).toFixed(2)]. *)
Definition bmiValue (height weight : string) : string :=
  toFixed (quotient height weight) 2.

(** The ladder of comparisons of [calculateBMI] on [bmiValue]. *)
Definition category (bmiValue : string) : string :=
  if string_lt bmiValue lit_18_5 then "Underweight"
  else if string_lt bmiValue lit_24_9 then "Normal weight"
  else if string_lt bmiValue lit_29_9 then "Overweight"
  else "Obese".

Definition calculateBMI (st : State) : State :=
  if truthy (height st) && truthy (weight st) then
    let v := bmiValue (height st) (weight st) in
    setMessage (category v) (setBMI (Some v) st)
  else
    setMessage error_message st.

Definition resetForm (st : State) : State :=
  setMessage "" (setBMI None (setWeight "" (setHeight "" st))).

(** The [onClick] handler of the theme button. *)
Definition toggleTheme (st : State) : State :=
  setDarkMode (negb (darkMode st)) st.

(** The guard [bmi && (...)] of the result block. *)
Definition result_shown (st : State) : bool :=
  match bmi st with
  | Some v => truthy v
  | None => false
  end.

(** The two paragraphs of the result block, when it is rendered. *)
Definition result_block (st : State) : option (string * string) :=
  if result_shown st then
    match bmi st with
    | Some v => Some ("Your BMI: " ++ v, message st)
    | None => None
    end
  else None.

(** ** Events *)

Inductive Event : Type :=
  | ChangeHeight (v : string)
  | ChangeWeight (v : string)
  | Submit
  | Reset
  | ToggleTheme.

(** The state after the handler of an event has run.  Whether the markup
    lets the event reach its handler is [enabled], below. *)
Definition handle (ev : Event) (st : State) : State :=
  match ev with
  | ChangeHeight v => setHeight v st
  | ChangeWeight v => setWeight v st
  | Submit => calculateBMI st
  | Reset => resetForm st
  | ToggleTheme => toggleTheme st
  end.

Definition run (evs : list Event) (st : State) : State :=
  fold_left (fun s ev => handle ev s) evs st.

(** The closure of the initial state under the five handlers, each run in any
    state.  It contains every state the widget can be in, and more: the
    markup does not let every event fire in every state (see
    [form_reachable]). *)
Inductive reachable : State -> Prop :=
  | reachable_initial : reachable initial
  | reachable_handle : forall ev st, reachable st -> reachable (handle ev st).

(** Whether the markup lets an event reach its handler.  Both inputs are
    [required], so the form does not fire [onSubmit] while one of them is
    empty; the Reset button is part of the result block and exists only
    while that block is rendered.  (The browser also holds back a submission
    for a step mismatch; the condition here is the part that the handlers'
    own guard tests.) *)
Definition enabled (ev : Event) (st : State) : bool :=
  match ev with
  | Submit => truthy (height st) && truthy (weight st)
  | Reset => result_shown st
  | ChangeHeight _ | ChangeWeight _ | ToggleTheme => true
  end.

(** The states reached from the initial one by events that the markup lets
    fire. *)
Inductive form_reachable : State -> Prop :=
  | form_initial : form_reachable initial
  | form_handle : forall ev st,
      form_reachable st -> enabled ev st = true -> form_reachable (handle ev st).

(** ** The informal state machine of the widget *)



(** ** Notions used in the statements *)

Fixpoint all_digits (s : string) : bool :=
  match s with
  | String c r => is_digit c && all_digits r
  | EmptyString => true
  end.

(** The string of a value with two decimals, [n] hundredths with a minus
    sign when [neg]: what toFixed writes for a finite Number below 10^21 in
    absolute value. *)
Definition fixed_string (neg : bool) (n : Z) : string :=
  ((if neg then "-" else "") ++ fixed_digits 2 n)%string.

(** The classification table of the specification, on a value given in
    hundredths: below 18.5, from 18.5 to below 24.9, from 24.9 to below 29.9,
    and from 29.9 on. *)
Definition spec_category (hundredths : Z) : string :=
  if hundredths <? 1850 then "Underweight"
  else if (1850 <=? hundredths) && (hundredths <? 2490) then "Normal weight"
  else if (2490 <=? hundredths) && (hundredths <? 2990) then "Overweight"
  else "Obese".

(** The ladder of comparisons on a Number. *)
Definition ladder (x : Number.t) : string :=
  if Number.lessThan x lit_18_5 then "Underweight"
  else if Number.lessThan x lit_24_9 then "Normal weight"
  else if Number.lessThan x lit_29_9 then "Overweight"
  else "Obese".

(** Whether the ladder and the table agree on [k] hundredths. *)
Definition ladder_agrees (k : nat) : bool :=
  (ladder (Number.of_decimal false (Z.of_nat k) (-2))
   =? spec_category (Z.of_nat k))%string.

(** Whether a string contains a point. *)
Fixpoint has_point (s : string) : bool :=
  match s with
  | String c r => (c =? ".")%char || has_point r
  | EmptyString => false
  end.

(** A stored BMI is never the empty string, and the message stored with it is
    its category unless a failed submission has overwritten it. *)
Definition consistent (st : State) : Prop :=
  match bmi st with
  | None => True
  | Some v => v <> "" /\ (message st = error_message \/ message st = category v)
  end.

(** What the form leaves in the state: no BMI and the empty message, or a
    BMI that is the rounded quotient of two filled fields, with its
    category. *)
Definition form_well_formed (st : State) : Prop :=
  match bmi st with
  | None => message st = ""
  | Some v =>
      (exists h w : string, h <> "" /\ w <> "" /\ v = bmiValue h w)
      /\ message st = category v
  end.

(** ** The rendered view *)

(** The two emoji of the theme button. *)
Inductive Icon : Type := Moon | Sun.

(** What the JSX tree shows of the state: the class of the outer container,
    the icon of the theme button, the values of the two controlled inputs
    and, behind the guard on [bmi], the two paragraphs of the result block
    (the Reset button is part of that block).  The remaining markup is
    constant. *)
Record View : Type := mkView {
  container_class : string;
  theme_icon : Icon;
  height_value : string;
  weight_value : string;
  result : option (string * string)
}.

Definition render (st : State) : View :=
  {| container_class :=
       "w-full max-w-sm p-6 rounded-lg shadow-lg text-center transition-all duration-300 "
       ++ (if darkMode st then "bg-gray-800 text-white" else "bg-white text-gray-900");
     theme_icon := if darkMode st then Moon else Sun;
     height_value := height st;
     weight_value := weight st;
     result := result_block st |}.

(** ** Notions used in the further properties *)

(** The number of presses of the theme button in a sequence of events. *)
Fixpoint toggles (evs : list Event) : nat :=
  match evs with
  | ToggleTheme :: r => S (toggles r)
  | _ :: r => toggles r
  | [] => O
  end.

(** Events other than a submission and a reset. *)
Definition quiet (ev : Event) : bool :=
  match ev with
  | Submit | Reset => false
  | ChangeHeight _ | ChangeWeight _ | ToggleTheme => true
  end.

(** The position of a label in the ladder. *)
Definition band_rank (label : string) : Z :=
  if (label =? "Underweight")%string then 0
  else if (label =? "Normal weight")%string then 1
  else if (label =? "Overweight")%string then 2
  else 3.

(** The states in which the stored BMI and the message fit together: without
    a BMI the message is empty or the error string; a stored BMI is the
    rounded quotient of two filled fields, and its message is its category or
    the error string. *)
Definition well_formed (st : State) : Prop :=
  match bmi st with
  | None => message st = "" \/ message st = error_message
  | Some v =>
      (exists h w : string, h <> "" /\ w <> "" /\ v = bmiValue h w)
      /\ (message st = category v \/ message st = error_message)
  end.


(** * Properties *)

(** ** Rounding to binary64 *)

Lemma digits2_pos_bounds (p : positive) :
  2 ^ (Zpos (digits2_pos p) - 1) <= Zpos p < 2 ^ Zpos (digits2_pos p).
Proof.
  induction p as [p IH | p IH |]; simpl digits2_pos.
  - rewrite Pos2Z.inj_succ, (Pos2Z.inj_xI p).
    replace (Z.succ (Zpos (digits2_pos p)) - 1) with (Z.succ (Zpos (digits2_pos p) - 1)) by lia.
    rewrite !Z.pow_succ_r by lia.
    destruct IH as [IH1 IH2]. revert IH1 IH2.
    generalize (2 ^ (Zpos (digits2_pos p) - 1)) (2 ^ Zpos (digits2_pos p)).
    intros; lia.
  - rewrite Pos2Z.inj_succ, (Pos2Z.inj_xO p).
    replace (Z.succ (Zpos (digits2_pos p)) - 1) with (Z.succ (Zpos (digits2_pos p) - 1)) by lia.
    rewrite !Z.pow_succ_r by lia.
    destruct IH as [IH1 IH2]. revert IH1 IH2.
    generalize (2 ^ (Zpos (digits2_pos p) - 1)) (2 ^ Zpos (digits2_pos p)).
    intros; lia.
  - simpl. lia.
Qed.

Lemma shr_1_m (mrs : shr_record) :
  0 <= shr_m mrs -> shr_m (shr_1 mrs) = shr_m mrs / 2.
Proof.
  destruct mrs as [m r s]. simpl.
  destruct m as [| [p | p |] | p]; simpl; intro H; try lia.
  - reflexivity.
  - rewrite (Pos2Z.inj_xI p). apply Z.div_unique with 1; lia.
  - rewrite (Pos2Z.inj_xO p). apply Z.div_unique with 0; lia.
  - reflexivity.
Qed.

Lemma iter_shr_1_m (p : positive) :
  forall mrs, 0 <= shr_m mrs ->
    shr_m (iter_pos shr_1 p mrs) = shr_m mrs / 2 ^ Zpos p.
Proof.
  induction p as [p IH | p IH |]; intros mrs H; simpl iter_pos.
  - assert (H1 : 0 <= shr_m (shr_1 mrs)).
    { rewrite shr_1_m by assumption. apply Z.div_pos; lia. }
    assert (H2 : 0 <= shr_m (iter_pos shr_1 p (shr_1 mrs))).
    { rewrite IH by assumption. apply Z.div_pos; [assumption | apply Z.pow_pos_nonneg; lia]. }
    rewrite IH by assumption. rewrite IH by assumption. rewrite shr_1_m by assumption.
    rewrite !Z.div_div by (try apply Z.pow_pos_nonneg; lia).
    f_equal. rewrite (Pos2Z.inj_xI p).
    replace (2 * Zpos p + 1) with (1 + Zpos p + Zpos p) by lia.
    rewrite !Z.pow_add_r by lia. lia.
  - assert (H2 : 0 <= shr_m (iter_pos shr_1 p mrs)).
    { rewrite IH by assumption. apply Z.div_pos; [assumption | apply Z.pow_pos_nonneg; lia]. }
    rewrite IH by assumption. rewrite IH by assumption.
    rewrite !Z.div_div by (try apply Z.pow_pos_nonneg; lia).
    f_equal. rewrite (Pos2Z.inj_xO p).
    replace (2 * Zpos p) with (Zpos p + Zpos p) by lia.
    rewrite !Z.pow_add_r by lia. lia.
  - rewrite shr_1_m by assumption. reflexivity.
Qed.

Lemma shr_record_of_loc_m (m : Z) (l : location) :
  shr_m (shr_record_of_loc m l) = m.
Proof. destruct l as [| []]; reflexivity. Qed.

(** Shifting to the canonical exponent keeps a mantissa non-negative, does
    not lower the exponent and, above the subnormal range, keeps a positive
    mantissa positive. *)
Lemma shr_fexp_shape (m e : Z) (l : location) :
  0 <= m ->
  let '(mrs, e') := shr_fexp 53 1024 m e l in
  0 <= shr_m mrs /\ e <= e' /\ (0 < m -> -1074 <= e -> 0 < shr_m mrs).
Proof.
  intro Hm. unfold shr_fexp, shr.
  set (n := fexp 53 1024 (Zdigits2 m + e) - e).
  destruct n as [| p | p] eqn:Hn.
  - rewrite shr_record_of_loc_m. lia.
  - rewrite iter_shr_1_m by (rewrite shr_record_of_loc_m; assumption).
    rewrite shr_record_of_loc_m.
    split; [apply Z.div_pos; [assumption | apply Z.pow_pos_nonneg; lia] |].
    split; [lia |].
    intros Hpos He.
    destruct m as [| q | q]; try lia.
    unfold n, fexp, emin in Hn. simpl Zdigits2 in Hn.
    assert (Hp : Zpos p = Zpos (digits2_pos q) - 53) by lia.
    pose proof (digits2_pos_bounds q) as [Hlo _].
    assert (H52 : 2 ^ 52 <= Zpos q / 2 ^ Zpos p).
    { apply Z.div_le_lower_bound; [apply Z.pow_pos_nonneg; lia |].
      rewrite <- Z.pow_add_r by lia.
      replace (Zpos p + 52) with (Zpos (digits2_pos q) - 1) by lia. assumption. }
    assert (0 < 2 ^ 52) by (apply Z.pow_pos_nonneg; lia). lia.
  - rewrite shr_record_of_loc_m. lia.
Qed.

Lemma round_nearest_even_ge (m : Z) (l : location) : m <= round_nearest_even m l.
Proof.
  destruct l as [| []]; simpl; try lia. destruct (Z.even m); lia.
Qed.

(** The result of rounding a non-negative mantissa carries the given sign;
    it is a zero, a finite Number or an infinity. *)
Lemma binary_round_aux_sign (sx : bool) (mx ex : Z) (lx : location) :
  0 <= mx ->
  match binary_round_aux 53 1024 sx mx ex lx with
  | S754_zero s | S754_infinity s | S754_finite s _ _ => s = sx
  | S754_nan => False
  end.
Proof.
  intro Hm. unfold binary_round_aux.
  pose proof (shr_fexp_shape mx ex lx Hm) as H1.
  destruct (shr_fexp 53 1024 mx ex lx) as [mrs1 e1].
  destruct H1 as (Hm1 & _ & _).
  pose proof (round_nearest_even_ge (shr_m mrs1) (loc_of_shr_record mrs1)) as Hr.
  set (m2 := round_nearest_even (shr_m mrs1) (loc_of_shr_record mrs1)) in *.
  assert (Hm2 : 0 <= m2) by lia.
  pose proof (shr_fexp_shape m2 e1 loc_Exact Hm2) as H2.
  destruct (shr_fexp 53 1024 m2 e1 loc_Exact) as [mrs2 e2].
  destruct H2 as (Hm3 & _ & _).
  destruct (shr_m mrs2) as [| q | q]; try lia.
  - reflexivity.
  - destruct (e2 <=? 1024 - 53); reflexivity.
Qed.

(** Above the subnormal range a positive mantissa rounds to an infinity or
    to a finite Number whose exponent is not below the given one. *)
Lemma binary_round_aux_exponent (sx : bool) (mx ex : Z) (lx : location) :
  0 < mx -> -1074 <= ex ->
  binary_round_aux 53 1024 sx mx ex lx = S754_infinity sx
  \/ exists m e, binary_round_aux 53 1024 sx mx ex lx = S754_finite sx m e /\ ex <= e.
Proof.
  intros Hm He. unfold binary_round_aux.
  pose proof (shr_fexp_shape mx ex lx (Z.lt_le_incl _ _ Hm)) as H1.
  destruct (shr_fexp 53 1024 mx ex lx) as [mrs1 e1].
  destruct H1 as (_ & He1 & Hm1). specialize (Hm1 Hm He).
  pose proof (round_nearest_even_ge (shr_m mrs1) (loc_of_shr_record mrs1)) as Hr.
  set (m2 := round_nearest_even (shr_m mrs1) (loc_of_shr_record mrs1)) in *.
  assert (Hm2 : 0 < m2) by lia.
  pose proof (shr_fexp_shape m2 e1 loc_Exact (Z.lt_le_incl _ _ Hm2)) as H2.
  destruct (shr_fexp 53 1024 m2 e1 loc_Exact) as [mrs2 e2].
  destruct H2 as (_ & He2 & Hm3). specialize (Hm3 Hm2 ltac:(lia)).
  destruct (shr_m mrs2) as [| q | q]; try lia.
  destruct (e2 <=? 1024 - 53).
  - right. exists q, e2. split; [reflexivity | lia].
  - left. reflexivity.
Qed.

(** ** Digit strings *)

Lemma digit_char_spec (d : Z) :
  0 <= d <= 9 -> is_digit (digit_char d) = true /\ digit_val (digit_char d) = d.
Proof.
  intro H.
  assert (Hd : d = 0 \/ d = 1 \/ d = 2 \/ d = 3 \/ d = 4 \/ d = 5 \/ d = 6
               \/ d = 7 \/ d = 8 \/ d = 9) by lia.
  repeat (destruct Hd as [Hd | Hd]; [subst d; split; reflexivity |]).
  subst d; split; reflexivity.
Qed.

Lemma mod_10_digit (n : Z) : 0 <= n mod 10 <= 9.
Proof.
  pose proof (Z.mod_pos_bound n 10 ltac:(lia)). lia.
Qed.

Lemma all_digits_app (a b : string) :
  all_digits (a ++ b) = all_digits a && all_digits b.
Proof.
  induction a as [| c a IH]; simpl.
  - reflexivity.
  - rewrite IH. apply andb_assoc.
Qed.

Lemma append_assoc (a b c : string) :
  ((a ++ b) ++ c)%string = (a ++ (b ++ c))%string.
Proof.
  induction a as [| x a IH]; simpl; [reflexivity | rewrite IH; reflexivity].
Qed.

Lemma digits_fuel_acc (fuel : nat) :
  forall n acc, digits_fuel fuel n acc = (digits_fuel fuel n "" ++ acc)%string.
Proof.
  induction fuel as [| f IH]; intros n acc; simpl.
  - reflexivity.
  - destruct (n / 10 =? 0).
    + reflexivity.
    + rewrite IH. rewrite (IH _ (String _ "")).
      rewrite append_assoc. reflexivity.
Qed.

Lemma digits_fuel_all_digits (fuel : nat) :
  forall n acc, all_digits acc = true -> all_digits (digits_fuel fuel n acc) = true.
Proof.
  induction fuel as [| f IH]; intros n acc Hacc; simpl.
  - assumption.
  - assert (Hd : all_digits (String (digit_char (n mod 10)) acc) = true).
    { simpl. rewrite Hacc.
      rewrite (proj1 (digit_char_spec _ (mod_10_digit n))). reflexivity. }
    destruct (n / 10 =? 0); [assumption | apply IH; assumption].
Qed.

Lemma digits_value_app (radix : Z) (val : ascii -> Z) (a b : string) :
  forall acc,
    digits_value radix val acc (a ++ b)
    = digits_value radix val (digits_value radix val acc a) b.
Proof.
  induction a as [| c a IH]; intro acc; simpl.
  - reflexivity.
  - apply IH.
Qed.

Lemma div_10_lt_pow2 (n : Z) (f : nat) :
  0 <= n < 2 ^ Z.of_nat (S f) -> 0 <= n / 10 < 2 ^ Z.of_nat f.
Proof.
  intros [H0 H1]. rewrite Nat2Z.inj_succ, Z.pow_succ_r in H1 by lia.
  split.
  - apply Z.div_pos; lia.
  - apply Z.div_lt_upper_bound; lia.
Qed.

Lemma decimal_value_digits_fuel (fuel : nat) :
  forall n, 0 <= n < 2 ^ Z.of_nat fuel ->
    decimal_value (digits_fuel fuel n "") = n.
Proof.
  induction fuel as [| f IH]; intros n Hn.
  - simpl in *. unfold decimal_value. simpl. lia.
  - simpl digits_fuel.
    pose proof (Z.div_mod n 10 ltac:(lia)) as Hdm.
    pose proof (digit_char_spec _ (mod_10_digit n)) as [_ Hval].
    destruct (n / 10 =? 0) eqn:Hq.
    + apply Z.eqb_eq in Hq. unfold decimal_value. simpl. rewrite Hval. lia.
    + rewrite digits_fuel_acc. unfold decimal_value.
      rewrite digits_value_app. fold (decimal_value (digits_fuel f (n / 10) "")).
      rewrite (IH _ (div_10_lt_pow2 n f Hn)). cbn [digits_value]. rewrite Hval. lia.
Qed.

Lemma log2_fuel (n : Z) :
  0 <= n -> 0 <= n < 2 ^ Z.of_nat (S (Z.to_nat (Z.log2 n))).
Proof.
  intro H. split; [assumption |].
  rewrite Nat2Z.inj_succ, Z2Nat.id by apply Z.log2_nonneg.
  destruct (Z.eq_dec n 0) as [-> | Hne].
  - reflexivity.
  - apply Z.log2_spec. lia.
Qed.

Lemma decimal_value_decimal_digits (n : Z) :
  0 <= n -> decimal_value (decimal_digits n) = n.
Proof.
  intro H. apply decimal_value_digits_fuel, log2_fuel, H.
Qed.

Lemma decimal_digits_all_digits (n : Z) : all_digits (decimal_digits n) = true.
Proof.
  apply digits_fuel_all_digits. reflexivity.
Qed.

Lemma zeros_all_digits (k : nat) : all_digits (zeros k) = true.
Proof.
  induction k as [| k IH]; simpl; [reflexivity | exact IH].
Qed.

Lemma zeros_length (k : nat) : String.length (zeros k) = k.
Proof.
  induction k as [| k IH]; simpl; [reflexivity | rewrite IH; reflexivity].
Qed.

Lemma decimal_value_zeros (k : nat) (s : string) :
  decimal_value (zeros k ++ s) = decimal_value s.
Proof.
  unfold decimal_value. induction k as [| k IH]; simpl.
  - reflexivity.
  - exact IH.
Qed.

Lemma append_length (a b : string) :
  String.length (a ++ b) = (String.length a + String.length b)%nat.
Proof.
  induction a as [| c a IH]; simpl; [reflexivity | rewrite IH; reflexivity].
Qed.

(** Cutting a string after its first [j] characters. *)
Lemma substring_split (s : string) :
  forall j : nat, (j <= String.length s)%nat ->
    (substring 0 j s ++ substring j (String.length s - j) s)%string = s
    /\ String.length (substring 0 j s) = j
    /\ String.length (substring j (String.length s - j) s) = (String.length s - j)%nat.
Proof.
  induction s as [| c s IH]; intros j Hj.
  - simpl in Hj. assert (j = O) by lia. subst j. simpl. repeat split.
  - destruct j as [| j].
    + simpl. clear IH Hj. 
      assert (H : forall t, substring 0 (String.length t) t = t).
      { induction t as [| d t IHt]; simpl; [reflexivity | rewrite IHt; reflexivity]. }
      rewrite H. repeat split.
    + simpl in Hj. destruct (IH j ltac:(lia)) as (H1 & H2 & H3).
      simpl. rewrite H1, H2, H3. repeat split.
Qed.

Lemma length_two (s : string) :
  String.length s = 2%nat -> exists d1 d2, s = String d1 (String d2 "").
Proof.
  destruct s as [| d1 [| d2 [| d3 s]]]; simpl; intro H; try discriminate.
  exists d1, d2. reflexivity.
Qed.

(** The output of steps 10.b-10.e of toFixed for two fraction digits: a
    non-empty run of digits, a point and two digits, which together spell
    [n]. *)
Lemma fixed_digits_2_shape (n : Z) :
  0 <= n ->
  exists (ip : string) (d1 d2 : ascii),
    fixed_digits 2 n = (ip ++ String "." (String d1 (String d2 "")))%string
    /\ ip <> ""
    /\ all_digits ip = true /\ is_digit d1 = true /\ is_digit d2 = true
    /\ decimal_value (ip ++ String d1 (String d2 "")) = n.
Proof.
  intro Hn. unfold fixed_digits.
  set (m0 := if n =? 0 then "0" else decimal_digits n).
  assert (Hm0 : all_digits m0 = true /\ decimal_value m0 = n).
  { unfold m0. destruct (n =? 0) eqn:H0.
    - apply Z.eqb_eq in H0. subst n. split; reflexivity.
    - split; [apply decimal_digits_all_digits | apply decimal_value_decimal_digits, Hn]. }
  destruct Hm0 as [Hdig Hval].
  set (k0 := String.length m0).
  set (m := if (k0 <=? 2)%nat then (zeros (2 + 1 - k0) ++ m0)%string else m0).
  set (k := if (k0 <=? 2)%nat then (2 + 1)%nat else k0).
  assert (Hm : all_digits m = true /\ decimal_value m = n
               /\ String.length m = k /\ (3 <= k)%nat).
  { unfold m, k. destruct (k0 <=? 2)%nat eqn:Hk.
    - apply Nat.leb_le in Hk.
      rewrite all_digits_app, zeros_all_digits, decimal_value_zeros,
        append_length, zeros_length.
      fold k0. repeat split; try assumption; lia.
    - apply Nat.leb_gt in Hk. fold k0. repeat split; try assumption; lia. }
  destruct Hm as (Hmd & Hmv & Hml & Hk3).
  destruct (substring_split m (k - 2) ltac:(lia)) as (Hsplit & Hla & Hlb).
  replace (String.length m - (k - 2))%nat with 2%nat in Hsplit, Hlb by lia.
  destruct (length_two _ Hlb) as (d1 & d2 & Hb).
  exists (substring 0 (k - 2) m), d1, d2.
  rewrite Hb in *.
  rewrite <- Hsplit, all_digits_app in Hmd. apply andb_true_iff in Hmd.
  destruct Hmd as [Ha Hb2]. simpl in Hb2.
  apply andb_true_iff in Hb2. destruct Hb2 as [Hd1 Hd2].
  apply andb_true_iff in Hd2. destruct Hd2 as [Hd2 _].
  repeat split; try assumption.
  - intro He. rewrite He in Hla. simpl in Hla. lia.
  - rewrite Hsplit. exact Hmv.
Qed.

(** ** Reading back the strings written by toFixed *)

Lemma digit_not_char (c x : ascii) :
  is_digit c = true -> is_digit x = false -> (c =? x)%char = false.
Proof.
  intros Hc Hx. destruct (Ascii.eqb_spec c x) as [-> | _].
  - rewrite Hc in Hx. discriminate Hx.
  - reflexivity.
Qed.

Lemma digit_not_white (c : ascii) : is_digit c = true -> is_white c = false.
Proof.
  unfold is_digit, is_white. intro H.
  apply andb_true_iff in H. destruct H as [H1 H2].
  apply Z.leb_le in H1, H2.
  repeat (apply orb_false_iff; split).
  - apply andb_false_iff. right. apply Z.leb_gt. lia.
  - apply Z.eqb_neq. lia.
  - apply Z.eqb_neq. lia.
Qed.

Lemma trim_end_app (a b : string) :
  b <> "" -> trim_end b = b -> trim_end (a ++ b) = (a ++ b)%string.
Proof.
  intros Hne Hb. induction a as [| x a IH]; simpl.
  - exact Hb.
  - rewrite IH. destruct (a ++ b)%string eqn:Hab.
    + destruct a; simpl in Hab; [contradiction | discriminate].
    + reflexivity.
Qed.

Lemma span_digits_app (a : string) (c : ascii) (r : string) :
  all_digits a = true -> is_digit c = false ->
  span is_digit (a ++ String c r) = (a, String c r).
Proof.
  intros Ha Hc. induction a as [| x a IH]; simpl.
  - rewrite Hc. reflexivity.
  - simpl in Ha. apply andb_true_iff in Ha. destruct Ha as [Hx Ha].
    rewrite Hx, (IH Ha). reflexivity.
Qed.

Lemma StringToNumber_trimmed (s : string) :
  s <> "" -> trim s = s ->
  StringToNumber s
  = match non_decimal_integer_literal s with
    | Some x => x
    | None => str_decimal_literal s
    end.
Proof.
  intros Hne Htrim. unfold StringToNumber. rewrite Htrim.
  destruct s; [contradiction Hne; reflexivity | reflexivity].
Qed.

Section FixedNotation.

(** A string [ip.d1d2]: the shape of what toFixed writes with two fraction
    digits below 10^21. *)
Variables (ip : string) (d1 d2 : ascii).
Hypothesis ip_nonempty : ip <> "".
Hypothesis ip_digits : all_digits ip = true.
Hypothesis d1_digit : is_digit d1 = true.
Hypothesis d2_digit : is_digit d2 = true.

Let body : string := (ip ++ String "." (String d1 (String d2 "")))%string.

Lemma unsigned_decimal_fixed :
  unsigned_decimal body
  = Some (decimal_value (ip ++ String d1 (String d2 "")), -2).
Proof.
  unfold unsigned_decimal, body.
  rewrite span_digits_app by (assumption || reflexivity).
  change ("." =? ".")%char with true. cbn iota.
  simpl span. rewrite d1_digit, d2_digit.
  destruct ip as [| c ip']; [contradiction ip_nonempty; reflexivity |].
  reflexivity.
Qed.

Lemma str_unsigned_decimal_literal_fixed (neg : bool) :
  str_unsigned_decimal_literal neg body
  = Number.of_decimal neg (decimal_value (ip ++ String d1 (String d2 ""))) (-2).
Proof.
  unfold str_unsigned_decimal_literal. rewrite unsigned_decimal_fixed.
  unfold body.
  destruct ip as [| c ip']; [contradiction ip_nonempty; reflexivity |].
  simpl in ip_digits. apply andb_true_iff in ip_digits.
  destruct ip_digits as [Hc _].
  simpl. rewrite (digit_not_char c "I" Hc eq_refl). reflexivity.
Qed.

Lemma trim_fixed (sign : string) :
  sign = "" \/ sign = "-" -> trim (sign ++ body) = (sign ++ body)%string.
Proof.
  intro Hsign. unfold trim.
  assert (Hstart : trim_start (sign ++ body) = (sign ++ body)%string).
  { unfold body. destruct Hsign as [-> | ->].
    - destruct ip as [| c ip']; [contradiction ip_nonempty; reflexivity |].
      simpl in ip_digits. apply andb_true_iff in ip_digits.
      destruct ip_digits as [Hc _].
      simpl. rewrite (digit_not_white c Hc). reflexivity.
    - reflexivity. }
  rewrite Hstart. unfold body. rewrite <- append_assoc.
  apply trim_end_app; [discriminate |].
  simpl. rewrite (digit_not_white d2 d2_digit). reflexivity.
Qed.

Lemma non_decimal_integer_literal_fixed :
  non_decimal_integer_literal body = None.
Proof.
  unfold body.
  destruct ip as [| c0 [| c1 ip'']]; [contradiction ip_nonempty; reflexivity | |].
  - simpl. destruct (c0 =? "0")%char; reflexivity.
  - simpl in ip_digits. apply andb_true_iff in ip_digits.
    destruct ip_digits as [_ H1]. apply andb_true_iff in H1.
    destruct H1 as [H1 _].
    simpl.
    rewrite (digit_not_char c1 "x" H1 eq_refl), (digit_not_char c1 "X" H1 eq_refl),
      (digit_not_char c1 "o" H1 eq_refl), (digit_not_char c1 "O" H1 eq_refl),
      (digit_not_char c1 "b" H1 eq_refl), (digit_not_char c1 "B" H1 eq_refl).
    destruct (c0 =? "0")%char; reflexivity.
Qed.

(** StringToNumber reads [ip.d1d2], with or without a minus sign, as the
    Number value for the decimal it spells. *)
Lemma StringToNumber_fixed (neg : bool) :
  StringToNumber ((if neg then "-" else "") ++ body)
  = Number.of_decimal neg (decimal_value (ip ++ String d1 (String d2 ""))) (-2).
Proof.
  assert (Hbody : exists c r, body = String c r /\ is_digit c = true).
  { unfold body.
    destruct ip as [| c ip']; [contradiction ip_nonempty; reflexivity |].
    simpl in ip_digits. apply andb_true_iff in ip_digits.
    destruct ip_digits as [Hc _]. eexists _, _. split; [reflexivity | exact Hc]. }
  destruct Hbody as (c & r & Hbody & Hc).
  rewrite StringToNumber_trimmed.
  - destruct neg.
    + rewrite <- (str_unsigned_decimal_literal_fixed true).
      rewrite Hbody. reflexivity.
    + change ("" ++ body)%string with body.
      rewrite non_decimal_integer_literal_fixed.
      rewrite <- (str_unsigned_decimal_literal_fixed false).
      rewrite Hbody. cbn [str_decimal_literal].
      rewrite (digit_not_char c "+" Hc eq_refl), (digit_not_char c "-" Hc eq_refl).
      reflexivity.
  - rewrite Hbody. destruct neg; discriminate.
  - apply trim_fixed. destruct neg; tauto.
Qed.

End FixedNotation.

(** ** Numbers read from decimals *)

Lemma div_eucl_fst (a b : Z) : fst (Z.div_eucl a b) = a / b.
Proof. reflexivity. Qed.

Lemma of_decimal_sign (neg : bool) (m e10 : Z) :
  0 <= m ->
  match Number.of_decimal neg m e10 with
  | S754_zero s | S754_infinity s | S754_finite s _ _ => s = neg
  | S754_nan => False
  end.
Proof.
  intro Hm. unfold Number.of_decimal.
  destruct m as [| p | p]; [reflexivity | | lia].
  destruct (0 <=? e10) eqn:He.
  - unfold binary_round.
    destruct (shl_align _ _ _) as [mz ez].
    apply binary_round_aux_sign. lia.
  - unfold SFdiv_core_binary.
    set (m' := match _ - _ with Z0 => _ | Zpos _ => _ | Zneg _ => _ end).
    assert (Hm' : 0 <= m').
    { unfold m'. destruct (_ - _) as [| s | s]; try lia.
      apply Z.shiftl_nonneg. lia. }
    pose proof (div_eucl_fst m' (10 ^ (- e10))) as Hq.
    destruct (Z.div_eucl m' (10 ^ (- e10))) as [q r]. simpl in Hq. subst q.
    apply binary_round_aux_sign.
    apply Z.div_pos; [assumption |].
    apply Z.leb_gt in He. apply Z.pow_pos_nonneg; lia.
Qed.

(** From 40.96 on, the Number for [n / 100] is an infinity or has an
    exponent of at least -47, above the exponent -48 of the three
    thresholds. *)
Lemma of_decimal_hundredths_large (n : Z) :
  4096 <= n ->
  Number.of_decimal false n (-2) = S754_infinity false
  \/ exists m e, Number.of_decimal false n (-2) = S754_finite false m e /\ -47 <= e.
Proof.
  intro Hn. unfold Number.of_decimal.
  destruct n as [| p | p]; try lia.
  change (0 <=? -2) with false. cbn iota.
  change (10 ^ (- -2)) with 100.
  unfold SFdiv_core_binary.
  change (Zdigits2 100) with 7. simpl Zdigits2.
  pose proof (digits2_pos_bounds p) as [_ Hhi].
  assert (Hd : 13 <= Zpos (digits2_pos p)).
  { destruct (Z_lt_le_dec (Zpos (digits2_pos p)) 13) as [Hlt | Hge]; [| exact Hge].
    assert (2 ^ Zpos (digits2_pos p) <= 2 ^ 12) by (apply Z.pow_le_mono_r; lia).
    change (2 ^ 12) with 4096 in *. lia. }
  set (e' := Z.min (fexp Number.prec Number.emax (Zpos (digits2_pos p) + 0 - (7 + 0))) (0 - 0)).
  assert (He' : -47 <= e' <= 0).
  { unfold e', fexp, emin, Number.prec, Number.emax. lia. }
  set (m' := match 0 - 0 - e' with Z0 => _ | Zpos _ => _ | Zneg _ => _ end).
  assert (Hm' : Zpos p <= m').
  { unfold m'. destruct (0 - 0 - e') as [| s | s] eqn:Hs; try lia.
    rewrite Z.shiftl_mul_pow2 by lia.
    assert (1 <= 2 ^ Zpos s) by (apply (Z.pow_le_mono_r 2 0); lia).
    nia. }
  pose proof (div_eucl_fst m' 100) as Hq.
  destruct (Z.div_eucl m' 100) as [q r]. simpl in Hq. subst q.
  assert (Hq : 0 < m' / 100).
  { apply Z.div_str_pos. lia. }
  destruct (binary_round_aux_exponent false (m' / 100) e' (new_location 100 r) Hq
              ltac:(lia)) as [H | (m & e & H & He)].
  - left. exact H.
  - right. exists m, e. split; [exact H | lia].
Qed.

Lemma category_ladder (v : string) : category v = ladder (StringToNumber v).
Proof. reflexivity. Qed.

Lemma ladder_agrees_small : forallb ladder_agrees (seq 0 4096) = true.
Proof. vm_compute. reflexivity. Qed.

Lemma ladder_hundredths (n : Z) :
  0 <= n -> ladder (Number.of_decimal false n (-2)) = spec_category n.
Proof.
  intro Hn. destruct (Z_lt_le_dec n 4096) as [Hsmall | Hlarge].
  - pose proof ladder_agrees_small as Hall.
    rewrite forallb_forall in Hall.
    specialize (Hall (Z.to_nat n)).
    unfold ladder_agrees in Hall. rewrite Z2Nat.id in Hall by assumption.
    apply String.eqb_eq. apply Hall. apply in_seq. lia.
  - assert (Hspec : spec_category n = "Obese").
    { unfold spec_category.
      destruct (n <? 1850) eqn:H1; [apply Z.ltb_lt in H1; lia |].
      destruct (n <? 2490) eqn:H2; [apply Z.ltb_lt in H2; lia |].
      destruct (n <? 2990) eqn:H3; [apply Z.ltb_lt in H3; lia |].
      rewrite !andb_false_r. reflexivity. }
    rewrite Hspec.
    destruct (of_decimal_hundredths_large n Hlarge) as [H | (m & e & H & He)];
      rewrite H.
    + reflexivity.
    + unfold ladder, Number.lessThan, SFltb.
      assert (Hcmp : forall mc, SFcompare (S754_finite false m e)
                                  (S754_finite false mc (-48)) = Some Gt).
      { intro mc. simpl. destruct (e ?= -48) eqn:Hc; try reflexivity.
        - apply Z.compare_eq in Hc. lia.
        - rewrite Z.compare_lt_iff in Hc. lia. }
      change lit_18_5 with (S754_finite false 5207287069147136 (-48)).
      change lit_24_9 with (S754_finite false 7008726920095334 (-48)).
      change lit_29_9 with (S754_finite false 8416101803648614 (-48)).
      rewrite !Hcmp. reflexivity.
Qed.

Lemma ladder_negative (n : Z) :
  0 <= n -> ladder (Number.of_decimal true n (-2)) = "Underweight".
Proof.
  intro Hn. pose proof (of_decimal_sign true n (-2) Hn) as Hs.
  destruct (Number.of_decimal true n (-2)) as [s | s | | s m e];
    try contradiction; subst s; reflexivity.
Qed.

(** The category of a string in fixed notation is the one the table gives to
    the decimal it spells. *)
Lemma category_fixed_string (neg : bool) (n : Z) :
  0 <= n ->
  category (fixed_string neg n) = spec_category (if neg then - n else n).
Proof.
  intro Hn. unfold fixed_string.
  destruct (fixed_digits_2_shape n Hn) as (ip & d1 & d2 & Hfix & Hne & Hip & Hd1 & Hd2 & Hval).
  rewrite Hfix, category_ladder.
  rewrite (StringToNumber_fixed ip d1 d2 Hne Hip Hd1 Hd2 neg), Hval.
  destruct neg.
  - rewrite (ladder_negative n Hn). unfold spec_category.
    destruct (- n <? 1850) eqn:H; [reflexivity | apply Z.ltb_ge in H; lia].
  - apply ladder_hundredths, Hn.
Qed.

Lemma SFcompare_antisym (x y : spec_float) :
  SFcompare y x = option_map CompOpp (SFcompare x y).
Proof.
  destruct x as [sx | sx | | sx mx ex], y as [sy | sy | | sy my ey];
    try reflexivity; try (destruct sx; reflexivity); try (destruct sy; reflexivity);
    try (destruct sx, sy; reflexivity).
  simpl.
  change (Pos.compare_cont Eq mx my) with (Pos.compare mx my).
  change (Pos.compare_cont Eq my mx) with (Pos.compare my mx).
  rewrite (Z.compare_antisym ex ey), (Pos.compare_antisym mx my).
  destruct sx, sy; simpl; try reflexivity;
    destruct (ex ?= ey); simpl; try reflexivity;
    destruct (mx ?= my)%positive; reflexivity.
Qed.

Lemma lessEq_not_lessThan (c x : Number.t) :
  Number.lessEq c x = true -> Number.lessThan x c = false.
Proof.
  unfold Number.lessEq, Number.lessThan, SFleb, SFltb.
  rewrite (SFcompare_antisym c x).
  destruct (SFcompare c x) as [[] |]; simpl; congruence.
Qed.

(** ** The real value of a Number and toFixed *)

Lemma pow2_pos (k : Z) : 0 <= k -> exists p : positive, 2 ^ k = Zpos p.
Proof.
  intro Hk. pose proof (Z.pow_pos_nonneg 2 k ltac:(lia) Hk) as H.
  destruct (2 ^ k) as [| p | p]; try lia. exists p. reflexivity.
Qed.

Lemma real_value_nonneg_exponent (m : positive) (e : Z) :
  0 <= e -> (inject_Z (Zpos m) * 2 ^ e == inject_Z (Zpos m * 2 ^ e))%Q.
Proof.
  intro He. rewrite inject_Z_mult.
  rewrite (Zpower_Qpower 2 e He). reflexivity.
Qed.

Lemma real_value_neg_exponent (m p : positive) (e : Z) :
  e < 0 -> 2 ^ (- e) = Zpos p ->
  (inject_Z (Zpos m) * 2 ^ e == Zpos m # p)%Q.
Proof.
  intros He Hp.
  replace e with (- - e) at 1 by lia.
  rewrite Qpower_opp.
  rewrite <- (Zpower_Qpower 2 (- e)) by lia.
  rewrite Hp. rewrite (Qmake_Qdiv (Zpos m) p). reflexivity.
Qed.

Lemma below_1e21 (m : positive) (e : Z) :
  (inject_Z (Zpos m) * 2 ^ e < 10 ^ 21)%Q -> at_least_1e21 m e = false.
Proof.
  intro H. unfold at_least_1e21.
  destruct (0 <=? e) eqn:He.
  - apply Z.leb_le in He. rewrite (real_value_nonneg_exponent m e He) in H.
    apply Z.leb_gt.
    change (10 ^ 21)%Q with (inject_Z (10 ^ 21)) in H.
    rewrite <- Zlt_Qlt in H. exact H.
  - apply Z.leb_gt in He.
    destruct (pow2_pos (- e) ltac:(lia)) as [p Hp].
    rewrite (real_value_neg_exponent m p e He Hp) in H.
    apply Z.leb_gt. rewrite Hp.
    change (10 ^ 21)%Q with (inject_Z (10 ^ 21)) in H.
    unfold Qlt in H. cbn [Qnum Qden inject_Z] in H. lia.
Qed.

(** The integer chosen by toFixed for two fraction digits is the integer
    nearest to a hundred times the value, the larger one on a tie. *)
Lemma nearest_scaled_2_spec (m : positive) (e : Z) :
  let n := nearest_scaled 2 m e in
  let r := (inject_Z (Zpos m) * 2 ^ e)%Q in
  0 <= n
  /\ (inject_Z n - (1 # 2) <= 100 * r)%Q
  /\ (100 * r < inject_Z n + (1 # 2))%Q.
Proof.
  intros n r. unfold n, r, nearest_scaled.
  change (10 ^ Z.of_nat 2) with 100.
  destruct (0 <=? e) eqn:He.
  - apply Z.leb_le in He. rewrite (real_value_nonneg_exponent m e He).
    destruct (pow2_pos e He) as [p Hp]. rewrite Hp.
    split; [lia |].
    unfold Qle, Qlt, Qminus, Qplus, Qopp, Qmult, inject_Z.
    cbn [Qnum Qden]. lia.
  - apply Z.leb_gt in He.
    destruct (pow2_pos (- e) ltac:(lia)) as [p Hp].
    rewrite (real_value_neg_exponent m p e He Hp).
    replace (1 - e) with (Z.succ (- e)) by lia.
    rewrite Z.pow_succ_r by lia. rewrite Hp.
    pose proof (Z.div_mod (2 * 100 * Zpos m + Zpos p) (2 * Zpos p) ltac:(lia)) as Hdm.
    pose proof (Z.mod_pos_bound (2 * 100 * Zpos m + Zpos p) (2 * Zpos p) ltac:(lia)) as Hmod.
    set (q := (2 * 100 * Zpos m + Zpos p) / (2 * Zpos p)) in *.
    assert (Hq : 0 <= q) by (apply Z.div_pos; lia).
    split; [exact Hq |].
    unfold Qle, Qlt, Qminus, Qplus, Qopp, Qmult, inject_Z.
    cbn [Qnum Qden]. nia.
Qed.

(** ** Signs of products and quotients *)

Lemma SFdiv_core_binary_nonneg (m1 m2 : positive) (e1 e2 : Z) :
  let '(q, _, _) := SFdiv_core_binary Number.prec Number.emax (Zpos m1) e1 (Zpos m2) e2 in
  0 <= q.
Proof.
  unfold SFdiv_core_binary.
  set (m' := match _ - _ - _ with Z0 => _ | Zpos _ => _ | Zneg _ => _ end).
  assert (Hm' : 0 <= m').
  { unfold m'. destruct (_ - _ - _) as [| s | s]; try lia.
    apply Z.shiftl_nonneg. lia. }
  pose proof (div_eucl_fst m' (Zpos m2)) as Hq.
  destruct (Z.div_eucl m' (Zpos m2)) as [q r]. simpl in Hq. subst q.
  apply Z.div_pos; lia.
Qed.

(** A Number above +0 is a positive finite Number or +Infinity. *)
Lemma positive_cases (x : Number.t) :
  Number.lessThan (S754_zero false) x = true ->
  x = S754_infinity false \/ exists m e, x = S754_finite false m e.
Proof.
  destruct x as [s | [|] | | [|] m e]; simpl; try discriminate; intros _.
  - left. reflexivity.
  - right. exists m, e. reflexivity.
Qed.

(** The quotient [w / (h * h)] of two Numbers above +0 is not negative: when
    it is finite and not a zero, its sign bit is clear. *)
Lemma positive_quotient_sign (h w : Number.t) (s : bool) (m : positive) (e : Z) :
  Number.lessThan (S754_zero false) h = true ->
  Number.lessThan (S754_zero false) w = true ->
  Number.divide w (Number.multiply h h) = S754_finite s m e ->
  s = false.
Proof.
  intros Hh Hw.
  assert (Hhh : match Number.multiply h h with
                | S754_zero s' | S754_infinity s' | S754_finite s' _ _ => s' = false
                | S754_nan => False
                end).
  { destruct (positive_cases h Hh) as [-> | (mh & eh & ->)].
    - reflexivity.
    - unfold Number.multiply, SFmul. simpl xorb.
      apply (binary_round_aux_sign false). lia. }
  destruct (Number.multiply h h) as [s' | s' | | s' mhh ehh];
    try contradiction; subst s'.
  - destruct (positive_cases w Hw) as [-> | (mw & ew & ->)]; discriminate.
  - destruct (positive_cases w Hw) as [-> | (mw & ew & ->)]; discriminate.
  - destruct (positive_cases w Hw) as [-> | (mw & ew & ->)]; [discriminate |].
    unfold Number.divide, SFdiv. simpl xorb.
    pose proof (SFdiv_core_binary_nonneg mw mhh ew ehh) as Hq.
    destruct (SFdiv_core_binary _ _ _ _ _ _) as [[q eq'] l].
    pose proof (binary_round_aux_sign false q eq' l Hq) as Hs.
    unfold Number.prec, Number.emax.
    intro Heq. rewrite Heq in Hs. exact Hs.
Qed.

(** ** Handlers that only move state around *)

(** C3: a submission with the height or the weight empty stores the fixed
    message and leaves the stored BMI (present or absent) as it was; nothing
    else changes either. *)
Theorem calculateBMI_missing_input :
  forall st : State,
    height st = "" \/ weight st = "" ->
    message (calculateBMI st) = "Please enter valid height and weight"
    /\ bmi (calculateBMI st) = bmi st
    /\ calculateBMI st = setMessage error_message st.
Proof.
  intros st Hempty.
  assert (Hguard : truthy (height st) && truthy (weight st) = false).
  { destruct Hempty as [H | H]; rewrite H; simpl.
    - reflexivity.
    - apply andb_false_r. }
  unfold calculateBMI. rewrite Hguard. repeat split.
Qed.

Lemma calculateBMI_missing_input_witness :
  let st := mkState "" "70" (Some "22.86") "Normal weight" true in
  message (calculateBMI st) = "Please enter valid height and weight"
  /\ bmi (calculateBMI st) = Some "22.86"
  /\ calculateBMI st = setMessage error_message st.
Proof.
  intro st.
  apply (calculateBMI_missing_input st).
  left. reflexivity.
Defined.

(** C4: whatever the state, [resetForm] succeeds and leaves the two inputs
    empty, no BMI and the empty message, which are the values of the initial
    state; the theme is the one cell it does not write. *)
Theorem resetForm_initial :
  forall st : State,
    height (resetForm st) = "" /\ weight (resetForm st) = ""
    /\ bmi (resetForm st) = None /\ message (resetForm st) = ""
    /\ height (resetForm st) = height initial
    /\ weight (resetForm st) = weight initial
    /\ bmi (resetForm st) = bmi initial
    /\ message (resetForm st) = message initial
    /\ resetForm st = setDarkMode (darkMode st) initial.
Proof.
  intros [h w b m d]. repeat split.
Qed.

(** C7: two presses of the theme button give back the state they started
    from, and one press changes the theme flag and nothing else. *)
Theorem toggleTheme_involutive_frame :
  forall st : State,
    darkMode (toggleTheme (toggleTheme st)) = darkMode st
    /\ toggleTheme (toggleTheme st) = st
    /\ darkMode (toggleTheme st) = negb (darkMode st)
    /\ height (toggleTheme st) = height st
    /\ weight (toggleTheme st) = weight st
    /\ bmi (toggleTheme st) = bmi st
    /\ message (toggleTheme st) = message st.
Proof.
  intros [h w b m d]. unfold toggleTheme, setDarkMode; simpl.
  rewrite negb_involutive. repeat split.
Qed.

(** C9: a change event stores the new string in its own field, whatever the
    string is, and touches no other cell. *)
Theorem change_replaces_own_field :
  forall (v : string) (st : State),
    (height (handle (ChangeHeight v) st) = v
     /\ weight (handle (ChangeHeight v) st) = weight st
     /\ bmi (handle (ChangeHeight v) st) = bmi st
     /\ message (handle (ChangeHeight v) st) = message st
     /\ darkMode (handle (ChangeHeight v) st) = darkMode st)
    /\
    (weight (handle (ChangeWeight v) st) = v
     /\ height (handle (ChangeWeight v) st) = height st
     /\ bmi (handle (ChangeWeight v) st) = bmi st
     /\ message (handle (ChangeWeight v) st) = message st
     /\ darkMode (handle (ChangeWeight v) st) = darkMode st).
Proof.
  intros v st. repeat split.
Qed.

(** ** Concrete submissions *)

(** C5: the three scenarios of the specification, from any prior state. *)
Theorem calculateBMI_scenarios :
  forall st : State,
    let submit h w := calculateBMI (setWeight w (setHeight h st)) in
    (bmi (submit "1.75" "70") = Some "22.86"
     /\ message (submit "1.75" "70") = "Normal weight")
    /\ (bmi (submit "1.60" "45") = Some "17.58"
        /\ message (submit "1.60" "45") = "Underweight")
    /\ (bmi (submit "1.80" "100") = Some "30.86"
        /\ message (submit "1.80" "100") = "Obese").
Proof.
  intros st submit. unfold submit, calculateBMI; simpl height; simpl weight.
  repeat split; vm_compute; reflexivity.
Qed.

(** C10: when both fields are filled and the quotient is NaN or +Infinity,
    the guard passes, the stored BMI is the string [NaN] or [Infinity], each
    of the three comparisons is false and the message is [Obese]. *)
Theorem calculateBMI_not_finite :
  forall st : State,
    height st <> "" -> weight st <> "" ->
    quotient (height st) (weight st) = Number.NaN
    \/ quotient (height st) (weight st) = Number.Infinity ->
    exists v : string,
      bmi (calculateBMI st) = Some v
      /\ (quotient (height st) (weight st) = Number.NaN -> v = "NaN")
      /\ (quotient (height st) (weight st) = Number.Infinity -> v = "Infinity")
      /\ string_lt v lit_18_5 = false
      /\ string_lt v lit_24_9 = false
      /\ string_lt v lit_29_9 = false
      /\ message (calculateBMI st) = "Obese".
Proof.
  intros st Hh Hw Hq.
  assert (Hguard : truthy (height st) && truthy (weight st) = true).
  { unfold truthy. apply andb_true_iff; split; apply negb_true_iff;
      apply String.eqb_neq; assumption. }
  unfold calculateBMI. rewrite Hguard. simpl.
  exists (bmiValue (height st) (weight st)). unfold bmiValue.
  destruct Hq as [Hq | Hq]; rewrite Hq.
  - repeat split; try reflexivity. intro H; discriminate H.
  - repeat split; try reflexivity. intro H; discriminate H.
Qed.

Lemma calculateBMI_not_finite_witness :
  let st := mkState "0" "70" None "" false in
  exists v : string,
    bmi (calculateBMI st) = Some v
    /\ (quotient (height st) (weight st) = Number.NaN -> v = "NaN")
    /\ (quotient (height st) (weight st) = Number.Infinity -> v = "Infinity")
    /\ string_lt v lit_18_5 = false
    /\ string_lt v lit_24_9 = false
    /\ string_lt v lit_29_9 = false
    /\ message (calculateBMI st) = "Obese".
Proof.
  intro st.
  apply (calculateBMI_not_finite st).
  - discriminate.
  - discriminate.
  - right. vm_compute. reflexivity.
Defined.

(** A height that is not a numeral gives NaN, a negative weight over a zero
    height gives -Infinity, which the first comparison accepts. *)
Example calculateBMI_non_numeric_height :
  let st := calculateBMI (mkState "abc" "70" None "" false) in
  bmi st = Some "NaN" /\ message st = "Obese".
Proof. vm_compute. split; reflexivity. Qed.

Example calculateBMI_negative_infinity :
  let st := calculateBMI (mkState "0" "-70" None "" false) in
  bmi st = Some "-Infinity" /\ message st = "Underweight".
Proof. vm_compute. split; reflexivity. Qed.

(** ** Strings produced by toFixed are not empty *)

Lemma append_nonempty_r (a b : string) : b <> "" -> (a ++ b)%string <> "".
Proof.
  intros Hb H. destruct a; simpl in H; [contradiction | discriminate].
Qed.

Lemma append_nonempty_l (a b : string) : a <> "" -> (a ++ b)%string <> "".
Proof.
  intros Ha H. destruct a; simpl in H; [contradiction | discriminate].
Qed.

Lemma digits_fuel_nonempty (fuel : nat) :
  forall n acc, acc <> "" -> digits_fuel fuel n acc <> "".
Proof.
  induction fuel as [| f IH]; intros n acc Hacc; simpl.
  - assumption.
  - destruct (n / 10 =? 0).
    + discriminate.
    + apply IH. discriminate.
Qed.

Lemma decimal_digits_nonempty (n : Z) : decimal_digits n <> "".
Proof.
  unfold decimal_digits. simpl.
  destruct (n / 10 =? 0).
  - discriminate.
  - apply digits_fuel_nonempty. discriminate.
Qed.

Lemma fixed_digits_nonempty (f : nat) (n : Z) : fixed_digits f n <> "".
Proof.
  unfold fixed_digits. destruct f as [| f'].
  - destruct (n =? 0); [discriminate | apply decimal_digits_nonempty].
  - apply append_nonempty_r. discriminate.
Qed.

Lemma toString_positive_nonempty (x : Number.t) (m : positive) (e : Z) :
  toString_positive x m e <> "".
Proof.
  unfold toString_positive.
  destruct (if 0 <=? e then _ else _) as [N D].
  destruct (shortest_digits x N D 25 (decimal_exponent N D) 1) as [[n k] s].
  destruct ((k <=? n) && (n <=? 21)).
  { apply append_nonempty_l, decimal_digits_nonempty. }
  destruct ((0 <? n) && (n <=? 21)).
  { apply append_nonempty_r. discriminate. }
  destruct ((-6 <? n) && (n <=? 0)).
  { discriminate. }
  destruct (k =? 1).
  - apply append_nonempty_r. discriminate.
  - apply append_nonempty_r. discriminate.
Qed.

Lemma toFixed_nonempty (x : Number.t) (f : nat) : toFixed x f <> "".
Proof.
  destruct x as [s | s | | s m e]; simpl.
  - apply fixed_digits_nonempty.
  - destruct s; discriminate.
  - discriminate.
  - apply append_nonempty_r.
    destruct (at_least_1e21 m e).
    + apply toString_positive_nonempty.
    + apply fixed_digits_nonempty.
Qed.

Lemma truthy_true (s : string) : truthy s = true <-> s <> "".
Proof.
  unfold truthy. rewrite negb_true_iff. apply String.eqb_neq.
Qed.

Lemma guard_filled (st : State) :
  height st <> "" -> weight st <> "" ->
  truthy (height st) && truthy (weight st) = true.
Proof.
  intros Hh Hw. apply andb_true_iff. split; apply truthy_true; assumption.
Qed.

Lemma guard_missing (st : State) :
  height st = "" \/ weight st = "" ->
  truthy (height st) && truthy (weight st) = false.
Proof.
  intros [H | H]; rewrite H; simpl; [reflexivity | apply andb_false_r].
Qed.

Lemma category_cases (v : string) :
  category v = "Underweight" \/ category v = "Normal weight"
  \/ category v = "Overweight" \/ category v = "Obese".
Proof.
  unfold category.
  destruct (string_lt v lit_18_5); [tauto |].
  destruct (string_lt v lit_24_9); [tauto |].
  destruct (string_lt v lit_29_9); tauto.
Qed.

Lemma category_not_error (v : string) : category v <> error_message.
Proof.
  destruct (category_cases v) as [H | [H | [H | H]]]; rewrite H; discriminate.
Qed.

(** ** Invariants of the reachable states *)

Lemma handle_consistent (ev : Event) (st : State) :
  consistent st -> consistent (handle ev st).
Proof.
  unfold consistent. destruct ev as [v | v | | |]; simpl; try tauto.
  - unfold calculateBMI.
    destruct (truthy (height st) && truthy (weight st)); simpl.
    + intros _. split; [apply toFixed_nonempty | right; reflexivity].
    + destruct (bmi st); [| trivial]. intros [Hne _]. split; [assumption | left; reflexivity].
Qed.

Lemma reachable_consistent (st : State) : reachable st -> consistent st.
Proof.
  induction 1 as [| ev st _ IH].
  - exact I.
  - apply handle_consistent, IH.
Qed.

(** C6: in every state reached from the initial one by edits, submissions,
    resets and theme toggles, a stored BMI whose message is not the error
    string carries the category that the ladder of comparisons gives it; when
    the stored string is in fixed notation, this is the entry of the table
    for the decimal it spells. *)
Theorem reachable_message_is_category :
  forall st : State,
    reachable st ->
    forall v : string,
      bmi st = Some v ->
      message st <> error_message ->
      message st = category v
      /\ (forall (neg : bool) (n : Z),
             0 <= n -> v = fixed_string neg n ->
             message st = spec_category (if neg then - n else n)).
Proof.
  intros st Hreach v Hbmi Hmsg.
  pose proof (reachable_consistent st Hreach) as Hc.
  unfold consistent in Hc. rewrite Hbmi in Hc.
  destruct Hc as [_ [H | H]]; [contradiction |].
  split; [exact H |].
  intros neg n Hn Hv. rewrite H, Hv. apply category_fixed_string, Hn.
Qed.

Lemma reachable_message_is_category_witness :
  let st := run [ChangeHeight "1.80"; ChangeWeight "100"; Submit; ToggleTheme;
                 ChangeHeight ""] initial in
  bmi st = Some "30.86" /\ message st = "Obese"
  /\ message st = category "30.86"
  /\ message st = spec_category 3086.
Proof.
  intro st.
  assert (Hbmi : bmi st = Some "30.86") by (vm_compute; reflexivity).
  assert (Hmsg : message st = "Obese") by (vm_compute; reflexivity).
  split; [exact Hbmi | split; [exact Hmsg |]].
  assert (Hreach : reachable st).
  { unfold st. cbv [run fold_left].
    repeat apply reachable_handle. apply reachable_initial. }
  assert (Hne : message st <> error_message).
  { rewrite Hmsg. discriminate. }
  destruct (reachable_message_is_category st Hreach "30.86" Hbmi Hne) as [H1 H2].
  split; [exact H1 |].
  apply (H2 false 3086); [lia | vm_compute; reflexivity].
Defined.

(** ** The state machine *)

Lemma run_reachable (evs : list Event) :
  forall st, reachable st -> reachable (run evs st).
Proof.
  induction evs as [| ev evs IH]; intros st Hst; simpl.
  - assumption.
  - apply IH. apply reachable_handle. assumption.
Qed.



Lemma form_reachable_well_formed (st : State) :
  form_reachable st -> form_well_formed st.
Proof.
  induction 1 as [| ev st _ IH Hen].
  - reflexivity.
  - unfold form_well_formed in *.
    destruct ev as [v | v | | |]; simpl in *; try exact IH.
    + unfold calculateBMI. rewrite Hen. simpl.
      apply andb_true_iff in Hen. destruct Hen as [Hh Hw].
      apply truthy_true in Hh, Hw.
      split; [| reflexivity].
      exists (height st), (weight st). repeat split; assumption.
    + reflexivity.
Qed.

Lemma form_reachable_no_error (st : State) :
  form_reachable st -> message st <> error_message.
Proof.
  intro Hreach. pose proof (form_reachable_well_formed st Hreach) as Hwf.
  unfold form_well_formed in Hwf.
  destruct (bmi st) as [v |].
  - destruct Hwf as [_ ->]. apply category_not_error.
  - rewrite Hwf. discriminate.
Qed.


(** A failed submission that no result preceded renders nothing: the error
    message sits inside the block that the missing BMI hides. *)
Remark error_hidden_without_result (st : State) :
  bmi st = None -> height st = "" \/ weight st = "" ->
  message (calculateBMI st) = error_message
  /\ result_block (calculateBMI st) = None.
Proof.
  intros Hbmi Hempty. unfold calculateBMI. rewrite (guard_missing st Hempty).
  unfold result_block, result_shown. simpl. rewrite Hbmi. split; reflexivity.
Qed.


(** ** Classification *)

(** A Number at or above a positive finite Number is at or above the positive
    finite Numbers with the same exponent and a smaller mantissa. *)
Lemma lessEq_lower (m1 m2 : positive) (ec : Z) (x : Number.t) :
  (m1 <=? m2)%positive = true ->
  Number.lessEq (S754_finite false m2 ec) x = true ->
  Number.lessEq (S754_finite false m1 ec) x = true.
Proof.
  intro Hm. apply Pos.leb_le in Hm.
  unfold Number.lessEq, SFleb.
  destruct x as [s | s | | s m e]; simpl; try (intro H; exact H).
  destruct s; [intro H; exact H |].
  destruct (ec ?= e); try (intro H; exact H).
  change (Pos.compare_cont Eq m2 m) with (m2 ?= m)%positive.
  change (Pos.compare_cont Eq m1 m) with (m1 ?= m)%positive.
  destruct (m2 ?= m)%positive eqn:H2; try discriminate; intros _.
  - apply Pos.compare_eq in H2. subst m.
    destruct (m1 ?= m2)%positive eqn:H1; try reflexivity.
    rewrite Pos.compare_gt_iff in H1. lia.
  - rewrite Pos.compare_lt_iff in H2.
    assert (H1 : (m1 < m)%positive) by lia.
    rewrite <- Pos.compare_lt_iff in H1. rewrite H1. reflexivity.
Qed.

(** C2: the category is a function of the rounded BMI string alone; a
    successful submission stores that string and its category; the function
    is total over the four labels; on the Number the string is read as, the
    bands are those of the ladder, with thresholds 18.5, 24.9 and 29.9; and on
    a string in fixed notation the bands are exactly those of the decimal it
    spells: below 18.50 Underweight, from 18.50 to 24.89 Normal weight, from
    24.90 to 29.89 Overweight, from 29.90 on Obese. *)
Theorem category_bands :
  (forall st : State,
      height st <> "" -> weight st <> "" ->
      bmi (calculateBMI st) = Some (bmiValue (height st) (weight st))
      /\ message (calculateBMI st) = category (bmiValue (height st) (weight st)))
  /\ (forall v : string,
        category v = "Underweight" \/ category v = "Normal weight"
        \/ category v = "Overweight" \/ category v = "Obese")
  /\ (forall v : string,
        let x := StringToNumber v in
        (Number.lessThan x lit_18_5 = true -> category v = "Underweight")
        /\ (Number.lessEq lit_18_5 x = true -> Number.lessThan x lit_24_9 = true ->
            category v = "Normal weight")
        /\ (Number.lessEq lit_24_9 x = true -> Number.lessThan x lit_29_9 = true ->
            category v = "Overweight")
        /\ (Number.lessEq lit_29_9 x = true -> category v = "Obese"))
  /\ (forall (neg : bool) (n : Z),
        0 <= n ->
        category (fixed_string neg n) = spec_category (if neg then - n else n)).
Proof.
  split.
  { intros st Hh Hw. unfold calculateBMI. rewrite (guard_filled st Hh Hw).
    split; reflexivity. }
  split; [exact category_cases |].
  split; [| exact category_fixed_string].
  intros v x. unfold category, string_lt. fold x.
  assert (Hmono1 : Number.lessEq lit_24_9 x = true -> Number.lessEq lit_18_5 x = true).
  { apply lessEq_lower. reflexivity. }
  assert (Hmono2 : Number.lessEq lit_29_9 x = true -> Number.lessEq lit_24_9 x = true).
  { apply lessEq_lower. reflexivity. }
  repeat split.
  - intros ->. reflexivity.
  - intros H1 H2. rewrite (lessEq_not_lessThan _ _ H1), H2. reflexivity.
  - intros H1 H2.
    rewrite (lessEq_not_lessThan _ _ (Hmono1 H1)), (lessEq_not_lessThan _ _ H1), H2.
    reflexivity.
  - intros H1.
    rewrite (lessEq_not_lessThan _ _ (Hmono1 (Hmono2 H1))),
      (lessEq_not_lessThan _ _ (Hmono2 H1)), (lessEq_not_lessThan _ _ H1).
    reflexivity.
Qed.

Lemma category_bands_witness :
  let st := mkState "1.75" "70" None "" false in
  category (fixed_string false 2490) = spec_category 2490
  /\ category (fixed_string true 5) = spec_category (- 5)
  /\ bmi (calculateBMI st) = Some (bmiValue (height st) (weight st))
  /\ message (calculateBMI st) = category (bmiValue (height st) (weight st)).
Proof.
  intro st.
  destruct category_bands as (Hstore & _ & _ & Htable).
  split; [apply (Htable false 2490); lia |].
  split; [apply (Htable true 5); lia |].
  apply (Hstore st); discriminate.
Defined.

(** The strings on either side of each threshold. *)
Example category_boundaries :
  category "18.49" = "Underweight" /\ category "18.50" = "Normal weight"
  /\ category "24.89" = "Normal weight" /\ category "24.90" = "Overweight"
  /\ category "29.89" = "Overweight" /\ category "29.90" = "Obese"
  /\ category "-0.00" = "Underweight" /\ category "1e+21" = "Obese".
Proof. vm_compute. repeat split. Qed.

(** ** The stored BMI *)

Lemma has_point_app (a r : string) : has_point (a ++ String "." r) = true.
Proof.
  induction a as [| c a IH]; simpl.
  - reflexivity.
  - rewrite IH. apply orb_true_r.
Qed.

(** C1, as stated, fails: with height [1] and weight [1e21] (both filled,
    both above zero) the quotient is 10^21 and toFixed answers in exponent
    notation; with height [1e-200] and weight [1] the square underflows to
    zero and the stored string is [Infinity].  Neither has two decimals. *)
Lemma bmiValue_two_decimals_counterexample :
  let st := mkState "1" "1e21" None "" false in
  let st' := mkState "1e-200" "1" None "" false in
  (height st <> "" /\ weight st <> ""
   /\ Number.lessThan (S754_zero false) (StringToNumber (height st)) = true
   /\ Number.lessThan (S754_zero false) (StringToNumber (weight st)) = true
   /\ bmi (calculateBMI st) = Some "1e+21"
   /\ ~ (exists (ip : string) (d1 d2 : ascii),
          bmi (calculateBMI st) = Some (ip ++ String "." (String d1 (String d2 "")))))
  /\
  (height st' <> "" /\ weight st' <> ""
   /\ Number.lessThan (S754_zero false) (StringToNumber (height st')) = true
   /\ Number.lessThan (S754_zero false) (StringToNumber (weight st')) = true
   /\ bmi (calculateBMI st') = Some "Infinity"
   /\ ~ (exists (ip : string) (d1 d2 : ascii),
          bmi (calculateBMI st') = Some (ip ++ String "." (String d1 (String d2 ""))))).
Proof.
  intros st st'.
  assert (H1 : bmi (calculateBMI st) = Some "1e+21") by (vm_compute; reflexivity).
  assert (H2 : bmi (calculateBMI st') = Some "Infinity") by (vm_compute; reflexivity).
  split.
  - split; [discriminate |]. split; [discriminate |].
    split; [vm_compute; reflexivity |]. split; [vm_compute; reflexivity |].
    split; [exact H1 |].
    rewrite H1. intros (ip & d1 & d2 & H). injection H as H.
    pose proof (has_point_app ip (String d1 (String d2 ""))) as Hp.
    rewrite <- H in Hp. discriminate Hp.
  - split; [discriminate |]. split; [discriminate |].
    split; [vm_compute; reflexivity |]. split; [vm_compute; reflexivity |].
    split; [exact H2 |].
    rewrite H2. intros (ip & d1 & d2 & H). injection H as H.
    pose proof (has_point_app ip (String d1 (String d2 ""))) as Hp.
    rewrite <- H in Hp. discriminate Hp.
Qed.

(** C1, amended: when both fields are filled and read as Numbers above zero,
    and the quotient [weight / (height * height)] is finite and below 10^21,
    the stored BMI is that quotient written by toFixed with two fraction
    digits: a run of digits, a point and exactly two digits, spelling the
    integer number of hundredths nearest to the quotient (the larger one on a
    tie). *)
Theorem bmiValue_two_decimals :
  forall (st : State) (r : Q),
    height st <> "" -> weight st <> "" ->
    Number.lessThan (S754_zero false) (StringToNumber (height st)) = true ->
    Number.lessThan (S754_zero false) (StringToNumber (weight st)) = true ->
    Number.to_Q (quotient (height st) (weight st)) = Some r ->
    (r < 10 ^ 21)%Q ->
    bmi (calculateBMI st) = Some (toFixed (quotient (height st) (weight st)) 2)
    /\ exists (n : Z) (ip : string) (d1 d2 : ascii),
         bmi (calculateBMI st) = Some (ip ++ String "." (String d1 (String d2 "")))
         /\ ip <> ""
         /\ all_digits ip = true /\ is_digit d1 = true /\ is_digit d2 = true
         /\ decimal_value (ip ++ String d1 (String d2 "")) = n
         /\ (inject_Z n - (1 # 2) <= 100 * r)%Q
         /\ (100 * r < inject_Z n + (1 # 2))%Q.
Proof.
  intros st r Hh Hw Hhpos Hwpos Hr Hlt.
  assert (Hbmi : bmi (calculateBMI st)
                 = Some (toFixed (quotient (height st) (weight st)) 2)).
  { unfold calculateBMI. rewrite (guard_filled st Hh Hw). reflexivity. }
  split; [exact Hbmi |].
  rewrite Hbmi.
  destruct (quotient (height st) (weight st)) as [s | s | | s m e] eqn:Hq;
    try discriminate Hr.
  - (* a zero *)
    injection Hr as <-.
    exists 0, "0", "0"%char, "0"%char.
    repeat split; try reflexivity; try discriminate.
  - (* a finite quotient *)
    assert (Hs : s = false).
    { apply (positive_quotient_sign _ _ s m e Hhpos Hwpos). exact Hq. }
    subst s. injection Hr as <-.
    assert (Heq : ((if false then -1 else 1) * inject_Z (Zpos m) * 2 ^ e
                   == inject_Z (Zpos m) * 2 ^ e)%Q) by ring.
    rewrite Heq in Hlt.
    unfold toFixed. rewrite (below_1e21 m e Hlt). cbn [append].
    destruct (nearest_scaled_2_spec m e) as (Hn & Hlo & Hhi).
    destruct (fixed_digits_2_shape _ Hn)
      as (ip & d1 & d2 & Hfix & Hne & Hip & Hd1 & Hd2 & Hval).
    exists (nearest_scaled 2 m e), ip, d1, d2.
    rewrite Hfix.
    split; [reflexivity |].
    split; [exact Hne |].
    split; [exact Hip |].
    split; [exact Hd1 |].
    split; [exact Hd2 |].
    split; [exact Hval |].
    split; [rewrite Heq; exact Hlo | rewrite Heq; exact Hhi].
Qed.

Lemma bmiValue_two_decimals_witness :
  let st := mkState "1.60" "45" None "" false in
  bmi (calculateBMI st) = Some "17.58"
  /\ exists (n : Z) (ip : string) (d1 d2 : ascii),
       bmi (calculateBMI st) = Some (ip ++ String "." (String d1 (String d2 "")))
       /\ ip <> ""
       /\ all_digits ip = true /\ is_digit d1 = true /\ is_digit d2 = true
       /\ decimal_value (ip ++ String d1 (String d2 "")) = n
       /\ (inject_Z n - (1 # 2) <= 100 * (inject_Z 4947802324991999 * 2 ^ (-48)))%Q
       /\ (100 * (inject_Z 4947802324991999 * 2 ^ (-48)) < inject_Z n + (1 # 2))%Q.
Proof.
  intro st.
  apply (bmiValue_two_decimals st (inject_Z 4947802324991999 * 2 ^ (-48))%Q).
  - discriminate.
  - discriminate.
  - vm_compute. reflexivity.
  - vm_compute. reflexivity.
  - vm_compute. reflexivity.
  - vm_compute. reflexivity.
Defined.

(** * Further properties of the handlers and the view *)

(** ** Submissions *)

(** X1: a submission stores the error string exactly when a field is empty;
    otherwise it stores one of the four labels. *)
Theorem error_iff_missing_input :
  forall st : State,
    (message (calculateBMI st) = error_message
     <-> height st = "" \/ weight st = "")
    /\ (height st <> "" /\ weight st <> "" ->
        In (message (calculateBMI st))
          ["Underweight"; "Normal weight"; "Overweight"; "Obese"]).
Proof.
  intro st.
  assert (Hfilled : height st <> "" /\ weight st <> "" ->
                    message (calculateBMI st)
                    = category (bmiValue (height st) (weight st))).
  { intros [Hh Hw]. unfold calculateBMI. rewrite (guard_filled st Hh Hw).
    reflexivity. }
  split; [split |].
  - intro Hmsg.
    destruct (string_dec (height st) "") as [Hh | Hh]; [left; exact Hh |].
    destruct (string_dec (weight st) "") as [Hw | Hw]; [right; exact Hw |].
    rewrite (Hfilled (conj Hh Hw)) in Hmsg.
    contradiction (category_not_error _ Hmsg).
  - intro Hempty. unfold calculateBMI. rewrite (guard_missing st Hempty).
    reflexivity.
  - intro H. rewrite (Hfilled H).
    destruct (category_cases (bmiValue (height st) (weight st)))
      as [-> | [-> | [-> | ->]]]; simpl; tauto.
Qed.

Lemma error_iff_missing_input_witness :
  let st := mkState "1.75" "70" None "" false in
  In (message (calculateBMI st))
    ["Underweight"; "Normal weight"; "Overweight"; "Obese"].
Proof.
  intro st.
  apply (proj2 (error_iff_missing_input st)).
  split; discriminate.
Defined.

(** X2: a submission repeated without an edit in between changes nothing
    more, and what a successful submission stores depends on the two fields
    only, not on an earlier result, message or theme. *)
Theorem calculateBMI_idempotent :
  forall st : State,
    calculateBMI (calculateBMI st) = calculateBMI st
    /\ (forall st' : State,
          height st' = height st -> weight st' = weight st ->
          height st <> "" -> weight st <> "" ->
          bmi (calculateBMI st') = bmi (calculateBMI st)
          /\ message (calculateBMI st') = message (calculateBMI st)).
Proof.
  intro st. split.
  - unfold calculateBMI at 2 3.
    destruct (truthy (height st) && truthy (weight st)) eqn:Hg.
    + unfold calculateBMI. simpl. rewrite Hg. reflexivity.
    + unfold calculateBMI. simpl. rewrite Hg. reflexivity.
  - intros st' Hh Hw Hne1 Hne2.
    unfold calculateBMI. rewrite Hh, Hw, (guard_filled st Hne1 Hne2).
    split; reflexivity.
Qed.

Lemma calculateBMI_idempotent_witness :
  let st := mkState "1.80" "100" None "" false in
  let st' := mkState "1.80" "100" (Some "17.58") error_message true in
  bmi (calculateBMI st') = bmi (calculateBMI st)
  /\ message (calculateBMI st') = message (calculateBMI st).
Proof.
  intros st st'.
  apply (proj2 (calculateBMI_idempotent st) st');
    try reflexivity; discriminate.
Defined.

(** X3: when both fields are filled and the quotient is a finite Number of
    magnitude [m * 2 ^ e] below 10^21, the submission stores the magnitude
    rounded to the nearest hundredth [n] (the larger on a tie) in fixed
    notation, with a minus sign when the quotient is negative, and the
    message is the entry of the table for that signed two-decimal value; a
    negative quotient is always Underweight.  A zero quotient is stored as
    [0.00] and is Underweight. *)
Theorem submission_rounds_and_classifies :
  forall (st : State),
    height st <> "" -> weight st <> "" ->
    (forall (s : bool) (m : positive) (e : Z),
        quotient (height st) (weight st) = S754_finite s m e ->
        (inject_Z (Zpos m) * 2 ^ e < 10 ^ 21)%Q ->
        exists n : Z,
          0 <= n
          /\ (inject_Z n - (1 # 2) <= 100 * (inject_Z (Zpos m) * 2 ^ e))%Q
          /\ (100 * (inject_Z (Zpos m) * 2 ^ e) < inject_Z n + (1 # 2))%Q
          /\ bmi (calculateBMI st) = Some (fixed_string s n)
          /\ message (calculateBMI st) = spec_category (if s then - n else n)
          /\ (s = true -> message (calculateBMI st) = "Underweight"))
    /\ (forall s : bool,
          quotient (height st) (weight st) = S754_zero s ->
          bmi (calculateBMI st) = Some "0.00"
          /\ message (calculateBMI st) = "Underweight").
Proof.
  intros st Hh Hw.
  assert (Hbmi : bmi (calculateBMI st) = Some (bmiValue (height st) (weight st))
                 /\ message (calculateBMI st)
                    = category (bmiValue (height st) (weight st))).
  { unfold calculateBMI. rewrite (guard_filled st Hh Hw). split; reflexivity. }
  destruct Hbmi as [Hbmi Hmsg]. rewrite Hbmi, Hmsg. unfold bmiValue.
  split.
  - intros s m e Hq Hlt. rewrite Hq.
    destruct (nearest_scaled_2_spec m e) as (Hn & Hlo & Hhi).
    exists (nearest_scaled 2 m e).
    assert (Hfix : toFixed (S754_finite s m e) 2
                   = fixed_string s (nearest_scaled 2 m e)).
    { unfold toFixed. rewrite (below_1e21 m e Hlt). reflexivity. }
    rewrite Hfix, (category_fixed_string s _ Hn).
    split; [exact Hn |]. split; [exact Hlo |]. split; [exact Hhi |].
    split; [reflexivity |]. split; [reflexivity |].
    intros ->. unfold spec_category.
    destruct (- nearest_scaled 2 m e <? 1850) eqn:H; [reflexivity |].
    apply Z.ltb_ge in H. lia.
  - intros s Hq. rewrite Hq. split; vm_compute; reflexivity.
Qed.

Lemma submission_rounds_and_classifies_witness :
  let st := mkState "-1.75" "-70" None "" false in
  exists n : Z,
    0 <= n
    /\ (inject_Z n - (1 # 2) <= 100 * (inject_Z 6433713753386423 * 2 ^ (-48)))%Q
    /\ (100 * (inject_Z 6433713753386423 * 2 ^ (-48)) < inject_Z n + (1 # 2))%Q
    /\ bmi (calculateBMI st) = Some (fixed_string true n)
    /\ message (calculateBMI st) = spec_category (- n)
    /\ (true = true -> message (calculateBMI st) = "Underweight").
Proof.
  intro st.
  apply (proj1 (submission_rounds_and_classifies st ltac:(discriminate)
                  ltac:(discriminate)) true 6433713753386423%positive (-48)).
  - vm_compute. reflexivity.
  - vm_compute. reflexivity.
Defined.

(** ** Edge cases of the quotient *)

(** A Number below +0 is a negative finite Number or -Infinity. *)
Lemma negative_cases (x : Number.t) :
  Number.lessThan x (S754_zero false) = true ->
  x = S754_infinity true \/ exists m e, x = S754_finite true m e.
Proof.
  destruct x as [s | [|] | | [|] m e]; simpl; try discriminate; intros _.
  - left. reflexivity.
  - right. exists m, e. reflexivity.
Qed.

(** X4: a height that reads as zero is not rejected: with both fields filled
    the division by zero stores [Infinity] and Obese for a weight above
    zero, [-Infinity] and Underweight for a weight below zero, and [NaN] and
    Obese for a weight that reads as zero or as NaN. *)
Theorem zero_height_submission :
  forall (st : State) (s : bool),
    height st <> "" -> weight st <> "" ->
    StringToNumber (height st) = S754_zero s ->
    let w := StringToNumber (weight st) in
    (Number.lessThan (S754_zero false) w = true ->
     bmi (calculateBMI st) = Some "Infinity"
     /\ message (calculateBMI st) = "Obese")
    /\ (Number.lessThan w (S754_zero false) = true ->
        bmi (calculateBMI st) = Some "-Infinity"
        /\ message (calculateBMI st) = "Underweight")
    /\ ((exists s', w = S754_zero s') \/ w = Number.NaN ->
        bmi (calculateBMI st) = Some "NaN"
        /\ message (calculateBMI st) = "Obese").
Proof.
  intros st s Hh Hw Hzero w.
  assert (Hstore : bmi (calculateBMI st) = Some (toFixed (Number.divide w (S754_zero false)) 2)
                   /\ message (calculateBMI st)
                      = category (toFixed (Number.divide w (S754_zero false)) 2)).
  { unfold calculateBMI. rewrite (guard_filled st Hh Hw).
    unfold bmiValue, quotient. rewrite Hzero. fold w.
    assert (Hsq : Number.multiply (S754_zero s) (S754_zero s) = S754_zero false)
      by (destruct s; reflexivity).
    rewrite Hsq. split; reflexivity. }
  destruct Hstore as [Hbmi Hmsg]. rewrite Hbmi, Hmsg.
  split; [| split].
  - intro Hpos.
    destruct (positive_cases w Hpos) as [-> | (m & e & ->)];
      split; vm_compute; reflexivity.
  - intro Hneg.
    destruct (negative_cases w Hneg) as [-> | (m & e & ->)];
      split; vm_compute; reflexivity.
  - intros [[s' ->] | ->]; split; vm_compute; reflexivity.
Qed.

Lemma zero_height_submission_witness :
  let st := mkState "0.00" "-70" None "" false in
  bmi (calculateBMI st) = Some "-Infinity"
  /\ message (calculateBMI st) = "Underweight".
Proof.
  intro st.
  refine (proj1 (proj2 (zero_height_submission st false _ _ _)) _).
  - discriminate.
  - discriminate.
  - vm_compute. reflexivity.
  - vm_compute. reflexivity.
Defined.

Lemma multiply_opp_opp (x : Number.t) :
  Number.multiply (SFopp x) (SFopp x) = Number.multiply x x.
Proof.
  destruct x as [s | s | | s m e]; try (destruct s; reflexivity).
  reflexivity.
Qed.

(** X5: the sign of the height does not matter: with both fields filled,
    two heights that read as opposite Numbers give the same stored BMI and
    the same message with the same weight. *)
Theorem height_sign_irrelevant :
  forall st st' : State,
    height st <> "" -> height st' <> "" -> weight st <> "" ->
    weight st' = weight st ->
    StringToNumber (height st') = SFopp (StringToNumber (height st)) ->
    bmi (calculateBMI st') = bmi (calculateBMI st)
    /\ message (calculateBMI st') = message (calculateBMI st).
Proof.
  intros st st' Hh Hh' Hw Heq Hopp.
  assert (Hw' : weight st' <> "") by (rewrite Heq; exact Hw).
  assert (Hq : bmiValue (height st') (weight st') = bmiValue (height st) (weight st)).
  { unfold bmiValue, quotient. rewrite Heq, Hopp, multiply_opp_opp. reflexivity. }
  unfold calculateBMI.
  rewrite (guard_filled st Hh Hw), (guard_filled st' Hh' Hw').
  simpl. rewrite Hq. split; reflexivity.
Qed.

Lemma height_sign_irrelevant_witness :
  let st := mkState "1.75" "70" None "" false in
  let st' := mkState "-1.75" "70" (Some "NaN") "Obese" true in
  bmi (calculateBMI st') = bmi (calculateBMI st)
  /\ message (calculateBMI st') = message (calculateBMI st).
Proof.
  intros st st'.
  apply (height_sign_irrelevant st st').
  - discriminate.
  - discriminate.
  - discriminate.
  - reflexivity.
  - vm_compute. reflexivity.
Defined.

(** X6: two fields that read as positive finite Numbers never give NaN or
    a negative quotient: the quotient is +0 (stored as [0.00], Underweight),
    a positive finite Number, or +Infinity (stored as [Infinity], Obese). *)
Theorem positive_finite_submission :
  forall (st : State) (mh mw : positive) (eh ew : Z),
    height st <> "" -> weight st <> "" ->
    StringToNumber (height st) = S754_finite false mh eh ->
    StringToNumber (weight st) = S754_finite false mw ew ->
    (quotient (height st) (weight st) = S754_zero false
     /\ bmi (calculateBMI st) = Some "0.00"
     /\ message (calculateBMI st) = "Underweight")
    \/ (exists m e, quotient (height st) (weight st) = S754_finite false m e)
    \/ (quotient (height st) (weight st) = S754_infinity false
        /\ bmi (calculateBMI st) = Some "Infinity"
        /\ message (calculateBMI st) = "Obese").
Proof.
  intros st mh mw eh ew Hh Hw Hhn Hwn.
  assert (Hstore : bmi (calculateBMI st) = Some (toFixed (quotient (height st) (weight st)) 2)
                   /\ message (calculateBMI st)
                      = category (toFixed (quotient (height st) (weight st)) 2)).
  { unfold calculateBMI. rewrite (guard_filled st Hh Hw). split; reflexivity. }
  destruct Hstore as [Hbmi Hmsg]. rewrite Hbmi, Hmsg.
  assert (Hq : match quotient (height st) (weight st) with
               | S754_zero s | S754_infinity s | S754_finite s _ _ => s = false
               | S754_nan => False
               end).
  { unfold quotient. rewrite Hhn, Hwn.
    pose proof (binary_round_aux_sign false (Zpos (mh * mh)) (eh + eh) loc_Exact
                  ltac:(lia)) as Hsq.
    unfold Number.multiply, SFmul. simpl xorb.
    unfold Number.prec, Number.emax.
    destruct (binary_round_aux 53 1024 false (Zpos (mh * mh)) (eh + eh) loc_Exact)
      as [s | s | | s mhh ehh]; try contradiction; subst s.
    - reflexivity.
    - reflexivity.
    - unfold Number.divide, SFdiv. simpl xorb.
      pose proof (SFdiv_core_binary_nonneg mw mhh ew ehh) as Hnn.
      unfold Number.prec, Number.emax in *.
      destruct (SFdiv_core_binary 53 1024 (Zpos mw) ew (Zpos mhh) ehh) as [[q eq'] l].
      exact (binary_round_aux_sign false q eq' l Hnn). }
  destruct (quotient (height st) (weight st)) as [s | s | | s m e];
    try contradiction; subst s.
  - left. repeat split; vm_compute; reflexivity.
  - right. right. repeat split; vm_compute; reflexivity.
  - right. left. exists m, e. reflexivity.
Qed.

Lemma positive_finite_submission_witness :
  let st := mkState "1e-200" "70" None "" false in
  (quotient (height st) (weight st) = S754_zero false
   /\ bmi (calculateBMI st) = Some "0.00"
   /\ message (calculateBMI st) = "Underweight")
  \/ (exists m e, quotient (height st) (weight st) = S754_finite false m e)
  \/ (quotient (height st) (weight st) = S754_infinity false
      /\ bmi (calculateBMI st) = Some "Infinity"
      /\ message (calculateBMI st) = "Obese").
Proof.
  intro st.
  apply (positive_finite_submission st 6894565328877484 4925812092436480 (-717) (-46)).
  - discriminate.
  - discriminate.
  - vm_compute. reflexivity.
  - vm_compute. reflexivity.
Defined.

(** ** What the view shows *)

(** X7: the message is displayed only inside the result block.  Without a
    stored BMI the view does not depend on the message at all; so a failed
    submission shows the error string only if a result was stored before
    (beside that old result), and after a reset a submission shows
    nothing. *)
Theorem error_display :
  forall st : State,
    (forall m : string, bmi st = None -> render (setMessage m st) = render st)
    /\ (reachable st -> height st = "" \/ weight st = "" ->
        result (render (calculateBMI st))
        = match bmi st with
          | Some v => Some ("Your BMI: " ++ v, error_message)
          | None => None
          end)
    /\ render (calculateBMI (resetForm st)) = render (resetForm st)
    /\ result (render (calculateBMI (resetForm st))) = None.
Proof.
  intro st. split; [| split; [| split]].
  - intros m Hbmi. unfold render, result_block, result_shown. simpl.
    rewrite Hbmi. reflexivity.
  - intros Hreach Hempty.
    pose proof (reachable_consistent st Hreach) as Hc. unfold consistent in Hc.
    unfold calculateBMI. rewrite (guard_missing st Hempty).
    unfold render, result_block, result_shown. simpl.
    destruct (bmi st) as [v |]; [| reflexivity].
    destruct Hc as [Hne _]. apply truthy_true in Hne. rewrite Hne. reflexivity.
  - reflexivity.
  - reflexivity.
Qed.

Lemma error_display_witness :
  let st := run [ChangeHeight "1.75"; ChangeWeight "70"; Submit; ChangeWeight ""]
              initial in
  result (render (calculateBMI st))
  = Some ("Your BMI: 22.86", "Please enter valid height and weight")
  /\ render (setMessage error_message initial) = render initial.
Proof.
  intro st. split.
  - apply (proj1 (proj2 (error_display st))).
    + apply run_reachable, reachable_initial.
    + right. reflexivity.
  - apply (proj1 (error_display initial)). reflexivity.
Defined.

Lemma run_app (evs1 evs2 : list Event) (st : State) :
  run (evs1 ++ evs2) st = run evs2 (run evs1 st).
Proof. unfold run. apply fold_left_app. Qed.

Lemma handle_toggle_commute (ev : Event) (st : State) :
  handle ev (toggleTheme st) = toggleTheme (handle ev st).
Proof.
  destruct ev as [v | v | | |]; try reflexivity.
  - simpl. unfold calculateBMI. simpl.
    destruct (truthy (height st) && truthy (weight st)); reflexivity.
Qed.

Lemma run_toggle_commute (evs : list Event) :
  forall st, run evs (toggleTheme st) = toggleTheme (run evs st).
Proof.
  induction evs as [| ev evs IH]; intro st.
  - reflexivity.
  - change (run (ev :: evs) (toggleTheme st))
      with (run evs (handle ev (toggleTheme st))).
    rewrite handle_toggle_commute. apply IH.
Qed.

(** X8: over any sequence of events, the theme is the starting theme flipped
    once per press of the theme button, whatever else happens in between, and
    a press of the button commutes with the whole rest: the fields, the BMI,
    the message and the result block are those of the same sequence without
    the press. *)
Theorem theme_over_sequences :
  forall (evs : list Event) (st : State),
    darkMode (run evs st) = xorb (darkMode st) (Nat.odd (toggles evs))
    /\ run evs (toggleTheme st) = toggleTheme (run evs st)
    /\ result (render (run evs (toggleTheme st))) = result (render (run evs st)).
Proof.
  intros evs st. pose proof (run_toggle_commute evs) as Hcomm.
  split; [| split].
  - clear Hcomm. revert st. induction evs as [| ev evs IH]; intro st.
    + simpl. rewrite xorb_false_r. reflexivity.
    + change (run (ev :: evs) st) with (run evs (handle ev st)).
      rewrite IH.
      assert (Hsubmit : darkMode (calculateBMI st) = darkMode st).
      { unfold calculateBMI.
        destruct (truthy (height st) && truthy (weight st)); reflexivity. }
      destruct ev as [v | v | | |]; simpl toggles; simpl handle.
      * reflexivity.
      * reflexivity.
      * rewrite Hsubmit. reflexivity.
      * reflexivity.
      * rewrite Nat.odd_succ, <- Nat.negb_odd. simpl.
        destruct (darkMode st), (Nat.odd (toggles evs)); reflexivity.
  - apply Hcomm.
  - rewrite Hcomm. reflexivity.
Qed.

Lemma quiet_keeps_result (ev : Event) (st : State) :
  quiet ev = true -> result_block (handle ev st) = result_block st.
Proof.
  destruct ev; simpl; try discriminate; reflexivity.
Qed.

Lemma result_block_none (st : State) :
  result_block st = None <-> result_shown st = false.
Proof.
  unfold result_block, result_shown.
  destruct (bmi st) as [v |]; [| tauto].
  destruct (truthy v); split; intro H; discriminate H || reflexivity.
Qed.

(** X9: the result block changes only through the two buttons of the form.
    Edits and theme presses, in any number and order, leave the block as it
    is, so a displayed result can be stale for the current fields; the
    block appears only through a submission with both fields filled, and
    once shown it disappears only through a reset. *)
Theorem result_block_lifecycle :
  forall st : State,
    (forall evs : list Event,
        forallb quiet evs = true ->
        result (render (run evs st)) = result (render st))
    /\ (forall ev : Event,
          result (render st) = None ->
          result (render (handle ev st)) <> None ->
          ev = Submit /\ height st <> "" /\ weight st <> "")
    /\ (forall ev : Event,
          result (render st) <> None ->
          ev <> Reset ->
          result (render (handle ev st)) <> None)
    /\ result (render (handle Reset st)) = None.
Proof.
  intro st. split; [| split; [| split]].
  - intro evs. revert st. induction evs as [| ev evs IH]; intros st Hq.
    + reflexivity.
    + simpl in Hq. apply andb_true_iff in Hq. destruct Hq as [Hev Hq].
      change (run (ev :: evs) st) with (run evs (handle ev st)).
      rewrite (IH _ Hq). simpl. apply quiet_keeps_result, Hev.
  - intros ev Hnone Hsome. simpl in *.
    destruct ev as [v | v | | |]; try (contradiction Hsome; exact Hnone).
    + split; [reflexivity |].
      destruct (string_dec (height st) "") as [Hh | Hh];
        [| destruct (string_dec (weight st) "") as [Hw | Hw]; [| tauto]].
      * exfalso. apply Hsome. simpl. unfold calculateBMI.
        rewrite (guard_missing st (or_introl Hh)).
        apply result_block_none. apply result_block_none in Hnone. exact Hnone.
      * exfalso. apply Hsome. simpl. unfold calculateBMI.
        rewrite (guard_missing st (or_intror Hw)).
        apply result_block_none. apply result_block_none in Hnone. exact Hnone.
    + contradiction Hsome. reflexivity.
  - intros ev Hsome Hev. simpl in *.
    destruct ev as [v | v | | |]; try exact Hsome.
    + simpl. unfold calculateBMI.
      destruct (truthy (height st) && truthy (weight st)) eqn:Hg.
      * unfold result_block, result_shown. simpl.
        pose proof (toFixed_nonempty (quotient (height st) (weight st)) 2) as Hne.
        apply truthy_true in Hne. unfold bmiValue. rewrite Hne. discriminate.
      * intro H. apply Hsome.
        apply result_block_none. apply result_block_none in H. exact H.
    + contradiction Hev. reflexivity.
  - reflexivity.
Qed.

Lemma result_block_lifecycle_witness :
  let st := run [ChangeHeight "1.75"; ChangeWeight "70"; Submit] initial in
  result (render (run [ChangeHeight "2"; ToggleTheme; ChangeWeight "0"] st))
  = result (render st)
  /\ result (render (handle Submit (setHeight "" st))) <> None.
Proof.
  intro st. split.
  - apply (proj1 (result_block_lifecycle st)). reflexivity.
  - apply (proj1 (proj2 (proj2 (result_block_lifecycle (setHeight "" st))))).
    + vm_compute. discriminate.
    + discriminate.
Defined.

(** ** The reachable states *)

Lemma handle_well_formed (ev : Event) (st : State) :
  well_formed st -> well_formed (handle ev st).
Proof.
  unfold well_formed. destruct ev as [v | v | | |]; simpl; try tauto.
  unfold calculateBMI.
  destruct (truthy (height st) && truthy (weight st)) eqn:Hg; simpl.
  - intros _. apply andb_true_iff in Hg. destruct Hg as [Hh Hw].
    apply truthy_true in Hh, Hw. split.
    + exists (height st), (weight st). repeat split; assumption.
    + left. reflexivity.
  - destruct (bmi st) as [v |]; [| tauto]. intros [Hv _]. split; [exact Hv | tauto].
Qed.

(** X10: every state in the closure of the initial state under the handlers
    is well-formed: without a stored BMI the message is empty or the error
    string; a stored BMI is the rounded quotient of two non-empty strings and
    its message is its category or the error string.  In the states that the
    form can reach (a submission fires only with both required fields filled,
    a reset only from the rendered block) the error string is never stored:
    there is no BMI and the message is empty, or the BMI is stored with its
    category.  So a label is never stored without a BMI and a stored BMI
    never has an empty message. *)
Theorem stored_result_well_formed :
  forall st : State,
    (reachable st -> well_formed st)
    /\ (form_reachable st ->
        form_well_formed st /\ message st <> error_message).
Proof.
  intro st. split.
  - induction 1 as [| ev st _ IH].
    + left. reflexivity.
    + apply handle_well_formed, IH.
  - intro Hreach. split.
    + apply form_reachable_well_formed, Hreach.
    + apply form_reachable_no_error, Hreach.
Qed.

Lemma stored_result_well_formed_witness :
  let st := run [ChangeHeight "1.75"; ChangeWeight "70"; Submit; ChangeHeight ""]
              initial in
  form_well_formed st /\ message st <> error_message.
Proof.
  intro st.
  apply (proj2 (stored_result_well_formed st)).
  unfold st. cbv [run fold_left].
  apply (form_handle (ChangeHeight "")); [| reflexivity].
  apply (form_handle Submit); [| reflexivity].
  apply (form_handle (ChangeWeight "70")); [| reflexivity].
  apply (form_handle (ChangeHeight "1.75")); [| reflexivity].
  apply form_initial.
Defined.

(** ** Order of the categories *)

Lemma band_rank_spec_category (v : Z) :
  band_rank (spec_category v)
  = if v <? 1850 then 0 else if v <? 2490 then 1 else if v <? 2990 then 2 else 3.
Proof.
  unfold spec_category.
  destruct (Z.ltb_spec v 1850); [reflexivity |].
  destruct (Z.ltb_spec v 2490), (Z.leb_spec 1850 v); try lia; try reflexivity.
  destruct (Z.ltb_spec v 2990), (Z.leb_spec 2490 v); try lia; reflexivity.
Qed.

(** X11: on stored strings in fixed notation the classification is monotone:
    a larger two-decimal value never gets an earlier label of the ladder, and
    every value with a minus sign is Underweight. *)
Theorem category_monotone :
  forall n1 n2 : Z,
    0 <= n1 -> n1 <= n2 ->
    band_rank (category (fixed_string false n1))
    <= band_rank (category (fixed_string false n2))
    /\ band_rank (category (fixed_string true n1)) = 0.
Proof.
  intros n1 n2 H1 H12.
  rewrite !category_fixed_string by lia.
  rewrite !band_rank_spec_category. split.
  - destruct (Z.ltb_spec n1 1850), (Z.ltb_spec n1 2490), (Z.ltb_spec n1 2990),
      (Z.ltb_spec n2 1850), (Z.ltb_spec n2 2490), (Z.ltb_spec n2 2990); lia.
  - destruct (Z.ltb_spec (- n1) 1850); lia.
Qed.

Lemma category_monotone_witness :
  band_rank (category (fixed_string false 2489))
  <= band_rank (category (fixed_string false 2490))
  /\ band_rank (category (fixed_string true 2489)) = 0.
Proof.
  apply (category_monotone 2489 2490); lia.
Defined.
